(** * vscode-rpm-spec: the linting and language-server glue of [extension.ts]

    A shallow embedding of [src/extension.ts]: the diagnostic pattern and the
    backtracking matcher that runs it, the [line] handler that turns a linter
    output line into a diagnostic, and the extension as a state machine driven
    by host events (activation, probe results, document events, linter
    process events, deactivation). *)

From Stdlib Require Import ZArith NArith List Bool Lia String Ascii.
From stdpp Require Import base option gmap.
Import ListNotations.

Local Open Scope Z_scope.

(** ** JavaScript strings

    A JavaScript string is a sequence of UTF-16 code units; the pattern has no
    [u] flag, so the matcher works on code units. *)

Definition char := N.
Definition jsstring := list char.

Definition js (s : string) : jsstring :=
  List.map N_of_ascii (list_ascii_of_string s).

Definition colon : char := 58%N.
Definition backslash : char := 92%N.

(** [\d] *)
Definition isDigit (c : char) : bool := ((48 <=? c) && (c <=? 57))%N.

(** ECMAScript LineTerminator: LF, CR, LS, PS. *)
Definition isLineTerminator (c : char) : bool :=
  ((c =? 10) || (c =? 13) || (c =? 0x2028) || (c =? 0x2029))%N.

(** ECMAScript WhiteSpace: TAB, VT, FF, SP, NBSP, ZWNBSP and category Zs. *)
Definition isWhiteSpace (c : char) : bool :=
  ((c =? 9) || (c =? 11) || (c =? 12) || (c =? 32) || (c =? 160) ||
   (c =? 0xFEFF) || (c =? 0x1680) || ((0x2000 <=? c) && (c <=? 0x200A)) ||
   (c =? 0x202F) || (c =? 0x205F) || (c =? 0x3000))%N.

(** [\s] and [\S] *)
Definition isSpace (c : char) : bool := isWhiteSpace c || isLineTerminator c.
Definition notSpace (c : char) : bool := negb (isSpace c).

(** [.] without the [s] flag *)
Definition isDot (c : char) : bool := negb (isLineTerminator c).

(** ** Regular expressions: the fragment [diagnosticPattern] is written in *)

Inductive GroupName := Gline | Gseverity | Gbody.

(** [match.groups]: a group that did not take part in the match is
    [undefined] ([None]). *)
Record Groups := {
  gline : option jsstring;
  gseverity : option jsstring;
  gbody : option jsstring
}.

Definition noGroups : Groups :=
  {| gline := None; gseverity := None; gbody := None |}.

Definition setGroup (n : GroupName) (v : option jsstring) (g : Groups) : Groups :=
  match n with
  | Gline => {| gline := v; gseverity := gseverity g; gbody := gbody g |}
  | Gseverity => {| gline := gline g; gseverity := v; gbody := gbody g |}
  | Gbody => {| gline := gline g; gseverity := gseverity g; gbody := v |}
  end.

Inductive regex :=
| Bol                                  (* ^ *)
| Eol                                  (* $ *)
| Chr (c : char)                       (* a pattern character *)
| Cls (p : char -> bool)               (* \d \s \S . *)
| Seq (r1 r2 : regex)
| Opt (r : regex)                      (* r? *)
| Star (r : regex)                     (* r* *)
| Plus (r : regex)                     (* r+ *)
| Grp (n : GroupName) (r : regex).     (* (?<n>r) *)

Fixpoint groupsIn (r : regex) : list GroupName :=
  match r with
  | Bol | Eol | Chr _ | Cls _ => []
  | Seq r1 r2 => groupsIn r1 ++ groupsIn r2
  | Opt r | Star r | Plus r => groupsIn r
  | Grp n r => n :: groupsIn r
  end.

(** Entering an iteration of a quantified atom resets the captures inside it. *)
Definition clearGroups (ns : list GroupName) (g : Groups) : Groups :=
  fold_right (fun n acc => setGroup n None acc) g ns.

(** A continuation receives the rest of the input and the captures so far. *)
Definition cont := jsstring -> Groups -> option Groups.

(** The greedy loop of a quantifier: one more iteration of [m] first, the
    continuation when that fails.  An iteration that consumes nothing is
    rejected, so [fuel] above the length of the rest of the input is never
    used up. *)
Fixpoint repeatMatcher (m : cont -> cont) (reset : Groups -> Groups)
    (k : cont) (fuel : nat) : cont :=
  fun s g =>
    match fuel with
    | O => None
    | S fuel' =>
        match m (fun s' g' =>
                   if (length s' <? length s)%nat
                   then repeatMatcher m reset k fuel' s' g'
                   else None) s (reset g) with
        | Some res => Some res
        | None => k s g
        end
    end.

(** The backtracking matcher; [n] is the length of the whole input, which
    [^] compares the rest against. *)
Fixpoint matchR (r : regex) (n : nat) (k : cont) (s : jsstring) (g : Groups)
    : option Groups :=
  match r with
  | Bol => if (length s =? n)%nat then k s g else None
  | Eol => match s with [] => k s g | _ :: _ => None end
  | Chr c =>
      match s with
      | x :: s' => if (x =? c)%N then k s' g else None
      | [] => None
      end
  | Cls p =>
      match s with
      | x :: s' => if p x then k s' g else None
      | [] => None
      end
  | Seq r1 r2 => matchR r1 n (fun s' g' => matchR r2 n k s' g') s g
  | Opt r =>
      match matchR r n (fun s' g' =>
                          if (length s' <? length s)%nat then k s' g' else None)
                    s (clearGroups (groupsIn r) g) with
      | Some res => Some res
      | None => k s g
      end
  | Star r =>
      repeatMatcher (matchR r n) (clearGroups (groupsIn r)) k (S (length s)) s g
  | Plus r =>
      matchR r n (fun s' g' =>
                    repeatMatcher (matchR r n) (clearGroups (groupsIn r)) k
                                  (S (length s')) s' g')
             s (clearGroups (groupsIn r) g)
  | Grp nm r =>
      matchR r n (fun s' g' =>
                    k s' (setGroup nm (Some (firstn (length s - length s') s)) g'))
             s g
  end.

(** [RegExp.prototype.exec] without the [g] and [y] flags: the first start
    position, from the left, at which the pattern matches. *)
Fixpoint scan (r : regex) (n : nat) (s : jsstring) : option Groups :=
  match matchR r n (fun _ g => Some g) s noGroups with
  | Some g => Some g
  | None =>
      match s with
      | [] => None
      | _ :: s' => scan r n s'
      end
  end.

Definition exec (r : regex) (input : jsstring) : option Groups :=
  scan r (length input) input.

(** ** The diagnostic pattern (extension.ts, lines 93-94) *)

(** The characters of the class [[.*+?^${}()|[\]\\]]. *)
Definition isSyntaxChar (c : char) : bool :=
  existsb (N.eqb c) (js ".*+?^${}()|[]\").

(** [filePath.replace(/[.*+?^${}()|[\]\\]/g, '\\$&')] *)
Fixpoint escapeRegExp (s : jsstring) : jsstring :=
  match s with
  | [] => []
  | c :: s' =>
      if isSyntaxChar c then backslash :: c :: escapeRegExp s'
      else c :: escapeRegExp s'
  end.

(** Reading pattern text back as a sequence of pattern characters: a
    backslash before a syntax character is an identity escape, any other
    character that is not a syntax character stands for itself.  Everything
    else (a bare syntax character, another escape) is outside this fragment.
    [esc] tells that the character before was an escaping backslash. *)
Fixpoint parseChars (esc : bool) (src : jsstring) : option (list char) :=
  match src with
  | [] => if esc then None else Some []
  | c :: rest =>
      if esc then
        if isSyntaxChar c then cons c <$> parseChars false rest else None
      else if (c =? backslash)%N then parseChars true rest
      else if isSyntaxChar c then None
      else cons c <$> parseChars false rest
  end.

Fixpoint lits (cs : list char) (r : regex) : regex :=
  match cs with
  | [] => r
  | c :: cs' => Seq (Chr c) (lits cs' r)
  end.

(** The part of the pattern after the interpolated path:
    [:(?:(?<line>\d+):)?\s*(?<severity>\S)+:\s*(?<body>.+)$] *)
Definition patternTail : regex :=
  Seq (Chr colon)
 (Seq (Opt (Seq (Grp Gline (Plus (Cls isDigit))) (Chr colon)))
 (Seq (Star (Cls isSpace))
 (Seq (Plus (Grp Gseverity (Cls notSpace)))
 (Seq (Chr colon)
 (Seq (Star (Cls isSpace))
 (Seq (Grp Gbody (Plus (Cls isDot)))
      Eol)))))).

(** [new RegExp(`^${escapedFilePath}:...$`)]; [None] stands for the
    constructor rejecting the pattern text. *)
Definition diagnosticPattern (filePath : jsstring) : option regex :=
  let escapedFilePath := escapeRegExp filePath in
  match parseChars false escapedFilePath with
  | Some cs => Some (Seq Bol (lits cs patternTail))
  | None => None
  end.

(** ** Documents and diagnostics (the part of the editor API the code uses) *)

Inductive DiagnosticSeverity := Error | Warning | Information | Hint.

Record Position := { pline : Z; character : Z }.
Record Range := { rstart : Position; rend : Position }.

Record Diagnostic := {
  range : Range;
  message : jsstring;
  severity : DiagnosticSeverity
}.

(** The line index a diagnostic is attached to. *)
Definition lineIndex (d : Diagnostic) : Z := pline (rstart (range d)).

(** The text of a document as the editor holds it.  The editor keeps at
    least one line in every text document (an empty document is one empty
    line), so the text is a first line and the lines after it. *)
Record DocText := {
  firstLine : jsstring;
  moreLines : list jsstring
}.

Definition docLines (t : DocText) : list jsstring := firstLine t :: moreLines t.

(** [document.lineCount] *)
Definition lineCount (t : DocText) : Z := Z.of_nat (length (docLines t)).

(** [document.lineAt(i).range]: the whole line; [None] when the editor throws
    because [i] is not the index of a line. *)
Definition lineAt (t : DocText) (i : Z) : option Range :=
  if (0 <=? i) && (i <? lineCount t) then
    match nth_error (docLines t) (Z.to_nat i) with
    | Some text =>
        Some {| rstart := {| pline := i; character := 0 |};
                rend := {| pline := i; character := Z.of_nat (length text) |} |}
    | None => None
    end
  else None.

(** ** The [line] handler (extension.ts, lines 96-112) *)

(** [SEVERITY[key]]: the object has the two own keys [W] and [E]; the keys
    looked up are one character long, and no inherited property has such a
    name. *)
Definition SEVERITY (key : jsstring) : option DiagnosticSeverity :=
  if decide (key = js "W") then Some Warning
  else if decide (key = js "E") then Some Error
  else None.

(** [Number(s)] on a string of decimal digits, which is all the [line] group
    can capture.  The value is exact here; JavaScript rounds above 2^53, far
    beyond any line count, and the clamp below absorbs the difference. *)
Definition digitValue (c : char) : Z := Z.of_N c - 48.

Definition Number (s : jsstring) : Z :=
  fold_left (fun acc c => 10 * acc + digitValue c) s 0.

(** [a ?? b] *)
Definition nullish {A} (a : option A) (b : A) : A :=
  match a with Some x => x | None => b end.

(** [match.groups?.line ? Number(match.groups.line) - 1 : 0]; the empty
    string is falsy. *)
Definition lineNumberOf (g : Groups) : Z :=
  match gline g with
  | Some (c :: l) => Number (c :: l) - 1
  | Some [] | None => 0
  end.

(** [Math.min(Math.max(lineNumber, 0), Math.max(document.lineCount - 1, 0))] *)
Definition safeLineNumber (lineNumber count : Z) : Z :=
  Z.min (Z.max lineNumber 0) (Z.max (count - 1) 0).

Inductive LineResult :=
| NoMatch                       (* [match === null]: nothing is pushed *)
| Produced (d : Diagnostic)     (* [array.push(diagnostic)] *)
| Thrown.                       (* [document.lineAt] threw *)

Definition lineDiagnostic (doc : DocText) (pattern : regex) (line : jsstring)
    : LineResult :=
  match exec pattern line with
  | Some groups =>
      let lineNumber := lineNumberOf groups in
      let safe := safeLineNumber lineNumber (lineCount doc) in
      match lineAt doc safe with
      | Some diagnosticRange =>
          Produced
            {| range := diagnosticRange;
               message := nullish (gbody groups) (js "Unknown rpmlint warning");
               severity :=
                 nullish (SEVERITY (nullish (gseverity groups) (js "W")))
                         Warning |}
      | None => Thrown
      end
  | None => NoMatch
  end.

(** The handler itself: what [array] holds after the line. *)
Definition onLine (doc : DocText) (pattern : regex) (line : jsstring)
    (array : list Diagnostic) : list Diagnostic :=
  match lineDiagnostic doc pattern line with
  | Produced d => array ++ [d]
  | NoMatch | Thrown => array
  end.

(** The parser on one line of linter output for the file at [filePath]. *)
Definition parseLine (doc : DocText) (filePath line : jsstring) : LineResult :=
  match diagnosticPattern filePath with
  | Some pattern => lineDiagnostic doc pattern line
  | None => Thrown
  end.

(** ** The extension as a state machine *)

Record Uri := { scheme : jsstring; fsPath : jsstring }.

(** The key a diagnostic collection files a document under. *)
Definition UriKey : Type := jsstring * jsstring.
Definition uriKey (u : Uri) : UriKey := (scheme u, fsPath u).

Record TextDocument := {
  uri : Uri;
  languageId : jsstring;
  isUntitled : bool;
  text : DocText
}.

(** The [rpmspec] configuration section; an unset key is [None] and
    [config.get(key, default)] supplies the default. *)
Record Config := {
  cfgLint : option bool;
  cfgLsp : option bool;
  cfgRpmlintPath : option jsstring;
  cfgLspPath : option jsstring
}.

Record SpawnOptions := {
  env : list (jsstring * jsstring);
  cwd : jsstring
}.

Record RPMLintContext := {
  path : jsstring;
  options : SpawnOptions
}.

(** A call of [cp.spawn]. *)
Record SpawnCall := {
  command : jsstring;
  args : list jsstring;
  spawnOptions : SpawnOptions
}.

Record LanguageClient := {
  clientId : jsstring;
  clientName : jsstring;
  serverCommand : jsstring;
  serverArgs : list jsstring;
  serverCwd : option jsstring;
  serverEnv : list (jsstring * jsstring);
  documentSelector : list (jsstring * jsstring);
  startCalls : nat;
  stopCalls : nat
}.

(** The callbacks the extension registers with the workspace. *)
Inductive DocEvent := DidOpen | DidSave | DidClose.
Inductive Handler :=
| LintDocument           (* [doc => lint(doc)] *)
| DeleteDiagnostics.     (* [document => diagnostics.delete(document.uri)] *)

Inductive Disposable := DiagnosticsDisposable | ClientDisposable.

(** What the closures of one [lint] call hold. *)
Record LintRun := {
  runUri : Uri;
  runPattern : regex;
  runArray : list Diagnostic
}.

(** What the [then] callbacks of [activate] captured.  The configuration
    object is read when [activate] runs, so the flag the sanity callback tests
    is the one of that moment. *)
Record Closure := {
  cSanityContext : RPMLintContext;
  cLint : bool;
  cLspPath : jsstring
}.

Record ExtState := {
  config : Config;                         (* the host's settings *)
  textDocuments : list TextDocument;       (* [vscode.workspace.textDocuments] *)
  diagnostics : option (gmap UriKey (list Diagnostic));
  lspClient : option LanguageClient;
  listeners : list (DocEvent * Handler);
  subscriptions : list Disposable;         (* [context.subscriptions] *)
  warnings : list jsstring;                (* [showWarningMessage] calls *)
  spawned : list SpawnCall;
  runs : list LintRun;
  sanityProbe : option Closure;            (* pending [checkSanity] promise *)
  lspProbe : option Closure                (* pending [checkLspAvailable] promise *)
}.

Definition initialState (c : Config) (docs : list TextDocument) : ExtState :=
  {| config := c; textDocuments := docs; diagnostics := None;
     lspClient := None; listeners := []; subscriptions := [];
     warnings := []; spawned := []; runs := [];
     sanityProbe := None; lspProbe := None |}.

(** Field updates. *)
Definition setConfig v (s : ExtState) : ExtState :=
  {| config := v; textDocuments := textDocuments s; diagnostics := diagnostics s;
     lspClient := lspClient s; listeners := listeners s; subscriptions := subscriptions s;
     warnings := warnings s; spawned := spawned s; runs := runs s;
     sanityProbe := sanityProbe s; lspProbe := lspProbe s |}.
Definition setTextDocuments v (s : ExtState) : ExtState :=
  {| config := config s; textDocuments := v; diagnostics := diagnostics s;
     lspClient := lspClient s; listeners := listeners s; subscriptions := subscriptions s;
     warnings := warnings s; spawned := spawned s; runs := runs s;
     sanityProbe := sanityProbe s; lspProbe := lspProbe s |}.
Definition setDiagnostics v (s : ExtState) : ExtState :=
  {| config := config s; textDocuments := textDocuments s; diagnostics := v;
     lspClient := lspClient s; listeners := listeners s; subscriptions := subscriptions s;
     warnings := warnings s; spawned := spawned s; runs := runs s;
     sanityProbe := sanityProbe s; lspProbe := lspProbe s |}.
Definition setLspClient v (s : ExtState) : ExtState :=
  {| config := config s; textDocuments := textDocuments s; diagnostics := diagnostics s;
     lspClient := v; listeners := listeners s; subscriptions := subscriptions s;
     warnings := warnings s; spawned := spawned s; runs := runs s;
     sanityProbe := sanityProbe s; lspProbe := lspProbe s |}.
Definition setListeners v (s : ExtState) : ExtState :=
  {| config := config s; textDocuments := textDocuments s; diagnostics := diagnostics s;
     lspClient := lspClient s; listeners := v; subscriptions := subscriptions s;
     warnings := warnings s; spawned := spawned s; runs := runs s;
     sanityProbe := sanityProbe s; lspProbe := lspProbe s |}.
Definition setSubscriptions v (s : ExtState) : ExtState :=
  {| config := config s; textDocuments := textDocuments s; diagnostics := diagnostics s;
     lspClient := lspClient s; listeners := listeners s; subscriptions := v;
     warnings := warnings s; spawned := spawned s; runs := runs s;
     sanityProbe := sanityProbe s; lspProbe := lspProbe s |}.
Definition setWarnings v (s : ExtState) : ExtState :=
  {| config := config s; textDocuments := textDocuments s; diagnostics := diagnostics s;
     lspClient := lspClient s; listeners := listeners s; subscriptions := subscriptions s;
     warnings := v; spawned := spawned s; runs := runs s;
     sanityProbe := sanityProbe s; lspProbe := lspProbe s |}.
Definition setSpawned v (s : ExtState) : ExtState :=
  {| config := config s; textDocuments := textDocuments s; diagnostics := diagnostics s;
     lspClient := lspClient s; listeners := listeners s; subscriptions := subscriptions s;
     warnings := warnings s; spawned := v; runs := runs s;
     sanityProbe := sanityProbe s; lspProbe := lspProbe s |}.
Definition setRuns v (s : ExtState) : ExtState :=
  {| config := config s; textDocuments := textDocuments s; diagnostics := diagnostics s;
     lspClient := lspClient s; listeners := listeners s; subscriptions := subscriptions s;
     warnings := warnings s; spawned := spawned s; runs := v;
     sanityProbe := sanityProbe s; lspProbe := lspProbe s |}.
Definition setSanityProbe v (s : ExtState) : ExtState :=
  {| config := config s; textDocuments := textDocuments s; diagnostics := diagnostics s;
     lspClient := lspClient s; listeners := listeners s; subscriptions := subscriptions s;
     warnings := warnings s; spawned := spawned s; runs := runs s;
     sanityProbe := v; lspProbe := lspProbe s |}.
Definition setLspProbe v (s : ExtState) : ExtState :=
  {| config := config s; textDocuments := textDocuments s; diagnostics := diagnostics s;
     lspClient := lspClient s; listeners := listeners s; subscriptions := subscriptions s;
     warnings := warnings s; spawned := spawned s; runs := runs s;
     sanityProbe := sanityProbe s; lspProbe := v |}.

Definition showWarningMessage (msg : jsstring) (s : ExtState) : ExtState :=
  setWarnings (warnings s ++ [msg]) s.

Definition spawn (c : jsstring) (a : list jsstring) (o : SpawnOptions)
    (s : ExtState) : ExtState :=
  setSpawned (spawned s ++ [{| command := c; args := a; spawnOptions := o |}]) s.

(** [diagnostics.delete(uri)] and [diagnostics.set(uri, array)].  The
    collection exists whenever they run: every caller is registered after
    [createDiagnosticCollection]. *)
Definition diagnosticsDelete (u : Uri) (s : ExtState) : ExtState :=
  setDiagnostics (delete (uriKey u) <$> diagnostics s) s.

Definition diagnosticsSet (u : Uri) (array : list Diagnostic) (s : ExtState)
    : ExtState :=
  setDiagnostics (insert (uriKey u) array <$> diagnostics s) s.

(** The diagnostic set of a document, when it has one. *)
Definition diagnosticsOf (s : ExtState) (u : Uri) : option (list Diagnostic) :=
  diagnostics s ≫= (fun m => m !! uriKey u).

Definition MODE_language : jsstring := js "rpm-spec".
Definition MODE_scheme : jsstring := js "file".

(** What the code asks of the host process and of the workspace. *)
Record Host := {
  workspaceFolders : list jsstring;             (* [uri.fsPath] of each *)
  processCwd : jsstring;                        (* [process.cwd()] *)
  processEnvPATH : option jsstring;             (* [process.env.PATH] *)
  getWorkspaceFolder : Uri -> option jsstring;  (* its [uri.fsPath] *)
  dirname : jsstring -> jsstring                (* [path.dirname] *)
}.

Section Extension.

Variable host : Host.

Definition lintEnv : list (jsstring * jsstring) :=
  [(js "LANG", js "C"); (js "PATH", nullish (processEnvPATH host) [])].

Definition getLintContext (c : Config) (document : TextDocument)
    : RPMLintContext :=
  let rpmlintPath := nullish (cfgRpmlintPath c) (js "rpmlint") in
  let cwd :=
    nullish (getWorkspaceFolder host (uri document))
            (dirname host (fsPath (uri document))) in
  {| path := rpmlintPath; options := {| env := lintEnv; cwd := cwd |} |}.

Definition getSanityContext (c : Config) : RPMLintContext :=
  let rpmlintPath := nullish (cfgRpmlintPath c) (js "rpmlint") in
  let cwd := nullish (head (workspaceFolders host)) (processCwd host) in
  {| path := rpmlintPath; options := {| env := lintEnv; cwd := cwd |} |}.

(** [cp.spawn] checks its arguments first and throws, before any process
    exists, when the file to run is the empty string.  A file that is
    missing or cannot be executed is reported later, by the [error] event of
    the process. *)
Definition spawnThrows (file : jsstring) : bool :=
  match file with
  | [] => true
  | _ :: _ => false
  end.

(** How a call ends: it returns, or an exception leaves it; either way with
    the state as it is at that point. *)
Inductive Outcome :=
| Returned (s : ExtState)
| Threw (s : ExtState).

Definition stateOf (o : Outcome) : ExtState :=
  match o with
  | Returned s | Threw s => s
  end.

(** [lint(document)] up to the point where it returns; the handlers it
    installs on the linter process are [onLintLine], [onLintClose] and
    [onLintError] below.  When [cp.spawn] throws, nothing has been changed
    yet and no handler is installed. *)
Definition lint (document : TextDocument) (s : ExtState) : Outcome :=
  if negb (bool_decide (languageId document = MODE_language)) then Returned s
  else if negb (bool_decide (scheme (uri document) = MODE_scheme))
          || isUntitled document then Returned s
  else if negb (nullish (cfgLint (config s)) true) then
    Returned (diagnosticsDelete (uri document) s)
  else
    let ctx := getLintContext (config s) document in
    let filePath := fsPath (uri document) in
    if spawnThrows (path ctx) then Threw s
    else
      let s1 := spawn (path ctx) [filePath] (options ctx) s in
      match diagnosticPattern filePath with
      | Some pattern =>
          Returned
            (setRuns (runs s1 ++ [{| runUri := uri document;
                                     runPattern := pattern;
                                     runArray := [] |}]) s1)
      | None => Threw s1   (* the [RegExp] constructor threw *)
      end.

(** [documents.forEach(doc => lint(doc))]: the first exception ends the
    loop and leaves it. *)
Fixpoint lintAll (documents : list TextDocument) (s : ExtState) : Outcome :=
  match documents with
  | [] => Returned s
  | doc :: rest =>
      match lint doc s with
      | Returned s' => lintAll rest s'
      | Threw s' => Threw s'
      end
  end.

Definition setRunArray (i : nat) (array : list Diagnostic) (s : ExtState)
    : ExtState :=
  setRuns (alter (fun r => {| runUri := runUri r; runPattern := runPattern r;
                              runArray := array |}) i (runs s)) s.

(** [reader.on('line', ...)] of run [i]; [doc] is the document's text when
    the line arrives. *)
Definition onLintLine (i : nat) (doc : DocText) (line : jsstring)
    (s : ExtState) : ExtState :=
  match runs s !! i with
  | Some r => setRunArray i (onLine doc (runPattern r) line (runArray r)) s
  | None => s
  end.

(** [reader.on('close', ...)] *)
Definition onLintClose (i : nat) (s : ExtState) : ExtState :=
  match runs s !! i with
  | Some r => diagnosticsSet (runUri r) (runArray r) s
  | None => s
  end.

(** [linter.on('error', ...)] *)
Definition onLintError (i : nat) (error : jsstring) (s : ExtState)
    : ExtState :=
  match runs s !! i with
  | Some r =>
      diagnosticsSet (runUri r) []
        (showWarningMessage (js "rpmlint failed: " ++ error) s)
  | None => s
  end.

Definition runHandler (h : Handler) (document : TextDocument) (s : ExtState)
    : Outcome :=
  match h with
  | LintDocument => lint document s
  | DeleteDiagnostics => Returned (diagnosticsDelete (uri document) s)
  end.

Definition eventKindEq (a b : DocEvent) : bool :=
  match a, b with
  | DidOpen, DidOpen | DidSave, DidSave | DidClose, DidClose => true
  | _, _ => false
  end.

(** The host fires a document event: every listener of that kind runs, in
    the order of registration.  The host's emitter catches what a listener
    throws and goes on with the next one. *)
Definition fire (e : DocEvent) (document : TextDocument) (s : ExtState)
    : ExtState :=
  fold_left (fun acc l => if eventKindEq (fst l) e
                          then stateOf (runHandler (snd l) document acc)
                          else acc)
            (listeners s) s.

(** The body of [checkSanity(...).then(exitCode => ...)]. *)
Definition truthyExit (exitCode : option Z) : bool :=
  match exitCode with
  | None => false            (* null *)
  | Some c => negb (c =? 0)
  end.

(** An exception inside the callback ends it there: what it did so far
    stays, the rest is not done. *)
Definition sanityThen (c : Closure) (exitCode : option Z) (s : ExtState)
    : ExtState :=
  if negb (truthyExit exitCode) && cLint c then
    let s1 := setDiagnostics (Some ∅) s in
    let s2 := setListeners (listeners s1 ++ [(DidOpen, LintDocument)]) s1 in
    let s3 := setListeners (listeners s2 ++ [(DidSave, LintDocument)]) s2 in
    match lintAll (textDocuments s3) s3 with
    | Returned s4 =>
        let s5 :=
          setListeners (listeners s4 ++ [(DidClose, DeleteDiagnostics)]) s4 in
        setSubscriptions (subscriptions s5 ++ [DiagnosticsDisposable]) s5
    | Threw s4 => s4
    end
  else s.

(** The body of [checkLspAvailable(...).then(available => ...)]. *)
Definition lspThen (c : Closure) (available : bool) (s : ExtState)
    : ExtState :=
  if negb available then s
  else
    let client :=
      {| clientId := js "rpm-spec-lsp";
         clientName := js "RPM Spec Language Server";
         serverCommand := cLspPath c;
         serverArgs := [js "--stdio"];
         serverCwd := Some (cwd (options (cSanityContext c)));
         serverEnv := env (options (cSanityContext c));
         documentSelector := [(MODE_language, MODE_scheme)];
         startCalls := 1;
         stopCalls := 0 |} in
    setSubscriptions (subscriptions s ++ [ClientDisposable])
      (setLspClient (Some client) s).

(** [activate(context)], the synchronous part: both probes are spawned and
    their promises are left pending.  The events [SanityExit], [SanityError],
    [LspExit] and [LspError] are those of the probes launched here; a probe
    whose [cp.spawn] throws inside the promise has none of them, its promise
    is rejected and its callback never runs. *)
Definition activate (s : ExtState) : ExtState :=
  let sanityContext := getSanityContext (config s) in
  let lspEnabled := nullish (cfgLsp (config s)) true in
  let lspPath := nullish (cfgLspPath (config s)) (js "rpm_lsp_server") in
  let c := {| cSanityContext := sanityContext;
              cLint := nullish (cfgLint (config s)) true;
              cLspPath := lspPath |} in
  let s1 := spawn (path sanityContext) [js "--help"] (options sanityContext) s in
  let s2 := setSanityProbe (Some c) s1 in
  if negb lspEnabled then s2
  else
    setLspProbe (Some c)
      (spawn lspPath [js "--help"] (options sanityContext) s2).

(** [deactivate()] *)
Definition deactivate (s : ExtState) : ExtState :=
  match lspClient s with
  | Some client =>
      setLspClient
        (Some {| clientId := clientId client;
                 clientName := clientName client;
                 serverCommand := serverCommand client;
                 serverArgs := serverArgs client;
                 serverCwd := serverCwd client;
                 serverEnv := serverEnv client;
                 documentSelector := documentSelector client;
                 startCalls := startCalls client;
                 stopCalls := S (stopCalls client) |}) s
  | None => s
  end.

(** What the host and the child processes can make happen.  A probe
    process reports once, [exit] or [error], and its promise settles once. *)
Inductive Event :=
| Activate
| SanityExit (code : option Z)      (* [exit] of [rpmlint --help] *)
| SanityError (error : jsstring)    (* [error]: it could not be spawned *)
| LspExit (code : option Z)
| LspError (error : jsstring)
| Opened (document : TextDocument)
| Saved (document : TextDocument)
| Closed (document : TextDocument)
| ConfigChanged (c : Config)
| LintLine (run : nat) (doc : DocText) (line : jsstring)
| LintClose (run : nat)
| LintError (run : nat) (error : jsstring)
| Deactivate.

Definition sameDocument (a b : TextDocument) : bool :=
  bool_decide (uriKey (uri a) = uriKey (uri b)).

Definition step (s : ExtState) (e : Event) : ExtState :=
  match e with
  | Activate => activate s
  | SanityExit code =>
      match sanityProbe s with
      | Some c => sanityThen c code (setSanityProbe None s)
      | None => s
      end
  | SanityError error =>
      match sanityProbe s with
      | Some c =>
          sanityThen c None
            (setSanityProbe None
               (showWarningMessage
                  (js "rpmlint cannot be launched: " ++ error) s))
      | None => s
      end
  | LspExit _ =>
      match lspProbe s with
      | Some c => lspThen c true (setLspProbe None s)
      | None => s
      end
  | LspError _ =>
      match lspProbe s with
      | Some c => lspThen c false (setLspProbe None s)
      | None => s
      end
  | Opened document =>
      fire DidOpen document
           (setTextDocuments (textDocuments s ++ [document]) s)
  | Saved document => fire DidSave document s
  | Closed document =>
      fire DidClose document
           (setTextDocuments
              (List.filter (fun d => negb (sameDocument d document))
                      (textDocuments s)) s)
  | ConfigChanged c => setConfig c s
  | LintLine i doc line => onLintLine i doc line s
  | LintClose i => onLintClose i s
  | LintError i error => onLintError i error s
  | Deactivate => deactivate s
  end.

Definition run (s : ExtState) (es : list Event) : ExtState :=
  fold_left step es s.

End Extension.

(** * Definitions used by the statements *)

(** ** The matcher on one-character atoms *)

(** The greedy loop over a one-character atom, by recursion on the input:
    as many characters as satisfy [p], and the continuation tried from the
    longest candidate down. *)
Fixpoint greedy (p : char -> bool) (upd : char -> Groups -> Groups) (k : cont)
    (s : jsstring) (g : Groups) : option Groups :=
  match s with
  | x :: s' =>
      if p x then
        match greedy p upd k s' (upd x g) with
        | Some res => Some res
        | None => k s g
        end
      else k s g
  | [] => k s g
  end.

Definition applyAll (upd : char -> Groups -> Groups) (xs : jsstring)
    (g : Groups) : Groups :=
  fold_left (fun acc x => upd x acc) xs g.

(** The leading run of non-whitespace characters. *)
Fixpoint firstToken (s : jsstring) : jsstring :=
  match s with
  | x :: s' => if notSpace x then x :: firstToken s' else []
  | [] => []
  end.

Definition beginsDigit (s : jsstring) : bool :=
  match s with
  | x :: _ => isDigit x
  | [] => false
  end.

Definition beginsSpace (s : jsstring) : bool :=
  match s with
  | x :: _ => isSpace x
  | [] => false
  end.

(** [m] consumes exactly one character satisfying [p]. *)
Definition oneChar (m : cont -> cont) (p : char -> bool)
    (upd : char -> Groups -> Groups) : Prop :=
  forall k s g,
    m k s g = match s with
              | x :: s' => if p x then k s' (upd x g) else None
              | [] => None
              end.

(** ** The stages of the pattern, from the end *)

Definition kfinal : cont := fun _ g => Some g.

Definition afterSeverity : regex :=
  Seq (Chr colon)
 (Seq (Star (Cls isSpace))
 (Seq (Grp Gbody (Plus (Cls isDot)))
      Eol)).

Definition fromSeverity : regex :=
  Seq (Plus (Grp Gseverity (Cls notSpace))) afterSeverity.

Definition fromSpaces : regex := Seq (Star (Cls isSpace)) fromSeverity.

Definition lineField : regex :=
  Seq (Grp Gline (Plus (Cls isDigit))) (Chr colon).

(** A message the [body] group takes whole: not empty, no line terminator,
    and no whitespace in front of it. *)
Definition plainMessage (msg : jsstring) : bool :=
  match msg with
  | [] => false
  | x :: _ => notSpace x && forallb isDot msg
  end.

(** No colon among the characters of [s]. *)
Definition noColon (s : jsstring) : bool :=
  forallb (fun x => negb (x =? colon)%N) s.

(** ** Lines of the expected shape *)

(** The text of the optional line-number field. *)
Definition lineFieldText (o : option jsstring) : jsstring :=
  match o with
  | Some d => d ++ [colon]
  | None => []
  end.

(** A non-empty run of digits. *)
Definition isNumeral (d : jsstring) : bool :=
  match d with
  | [] => false
  | _ :: _ => forallb isDigit d
  end.

(** A present line number is a numeral; when it is left out, what follows
    the path must not start with a digit, or the pattern would read a line
    number there. *)
Definition lineFieldOk (o : option jsstring) (next : jsstring) : bool :=
  match o with
  | Some d => isNumeral d
  | None => negb (beginsDigit next)
  end.

(** ** From the match to the diagnostic *)

Definition charE : char := 69%N.
Definition charW : char := 87%N.

Fixpoint startsWith (prefix s : jsstring) : bool :=
  match prefix, s with
  | [], _ => true
  | x :: prefix', y :: s' => (x =? y)%N && startsWith prefix' s'
  | _ :: _, [] => false
  end.

(** The line number the handler resolves from the line-number field. *)
Definition fieldLineNumber (o : option jsstring) : Z :=
  match o with
  | Some d => Number d - 1
  | None => 0
  end.

(** ** Sample data *)

Definition specPath : jsstring := js "/ws/pkg.spec".

(** A document of five lines. *)
Definition doc5 : DocText :=
  {| firstLine := js "Name: pkg";
     moreLines := [js "Version: 1"; js "Release: 1 "; js "Summary: x";
                   js "License: MIT"] |}.

(** ** The extension's state machine *)

(** The documents [lint] goes on with: spec files on disk. *)
Definition lintable (document : TextDocument) : bool :=
  bool_decide (languageId document = MODE_language)
  && bool_decide (scheme (uri document) = MODE_scheme)
  && negb (isUntitled document).

Definition lintEnabled (s : ExtState) : bool := nullish (cfgLint (config s)) true.

(** What a line contributes to the array. *)
Definition produced (r : LineResult) : list Diagnostic :=
  match r with
  | Produced d => [d]
  | NoMatch | Thrown => []
  end.

(** The diagnostics of a sequence of lines, each with the document text at
    its arrival, in the order of the lines. *)
Definition collect (pattern : regex) (ls : list (DocText * jsstring))
    : list Diagnostic :=
  flat_map (fun dl => produced (lineDiagnostic (fst dl) pattern (snd dl))) ls.

Definition lineEvents (i : nat) (ls : list (DocText * jsstring)) : list Event :=
  List.map (fun dl => LintLine i (fst dl) (snd dl)) ls.

(** Events other than the start and the end of the session. *)
Definition midSession (e : Event) : bool :=
  match e with
  | Activate | Deactivate => false
  | _ => true
  end.

(** Events that leave the language-server probe alone. *)
Definition notLspEvent (e : Event) : bool :=
  match e with
  | Activate | Deactivate | LspExit _ | LspError _ => false
  | _ => true
  end.

(** What [lint] and the document listeners never touch. *)
Definition sameSession (s s' : ExtState) : Prop :=
  config s' = config s
  /\ lspClient s' = lspClient s
  /\ lspProbe s' = lspProbe s
  /\ sanityProbe s' = sanityProbe s
  /\ listeners s' = listeners s
  /\ subscriptions s' = subscriptions s
  /\ warnings s' = warnings s.

(** *** Linting switched off *)

(** From [s] to [s'] nothing was spawned, and the only change to the
    diagnostics, if any, is that the set filed under [k] is gone. *)
Definition quietOn (k : UriKey) (s s' : ExtState) : Prop :=
  config s' = config s
  /\ spawned s' = spawned s
  /\ runs s' = runs s
  /\ (diagnostics s' = diagnostics s
      \/ diagnostics s' = delete k <$> diagnostics s).

Definition dispatch (host : Host) (e : DocEvent) (document : TextDocument)
    (ls : list (DocEvent * Handler)) (s : ExtState) : ExtState :=
  fold_left (fun acc l => if eventKindEq (fst l) e
                          then stateOf (runHandler host (snd l) document acc)
                          else acc)
            ls s.

(** The document event a host event stands for. *)
Definition trigger (e : DocEvent) (document : TextDocument) : Event :=
  match e with
  | DidOpen => Opened document
  | DidSave => Saved document
  | DidClose => Closed document
  end.

(** *** Activation and the probes *)

Definition registered : list (DocEvent * Handler) :=
  [(DidOpen, LintDocument); (DidSave, LintDocument);
   (DidClose, DeleteDiagnostics)].

(** What [activate] leaves for its two callbacks. *)
Definition closureAt (host : Host) (s : ExtState) : Closure :=
  {| cSanityContext := getSanityContext host (config s);
     cLint := nullish (cfgLint (config s)) true;
     cLspPath := nullish (cfgLspPath (config s)) (js "rpm_lsp_server") |}.

(** ** Sample session *)

Definition sampleHost : Host :=
  {| workspaceFolders := [js "/ws"];
     processCwd := js "/";
     processEnvPATH := Some (js "/usr/bin");
     getWorkspaceFolder := fun _ => Some (js "/ws");
     dirname := fun p => p |}.

Definition defaults : Config :=
  {| cfgLint := None; cfgLsp := None;
     cfgRpmlintPath := None; cfgLspPath := None |}.

Definition lintOff : Config :=
  {| cfgLint := Some false; cfgLsp := None;
     cfgRpmlintPath := None; cfgLspPath := None |}.

Definition specA : TextDocument :=
  {| uri := {| scheme := js "file"; fsPath := js "/ws/a.spec" |};
     languageId := js "rpm-spec"; isUntitled := false; text := doc5 |}.

Definition specB : TextDocument :=
  {| uri := {| scheme := js "file"; fsPath := js "/ws/b.spec" |};
     languageId := js "rpm-spec"; isUntitled := false; text := doc5 |}.

(** The whole of line [i] of [doc5], whose text is [len] long. *)
Definition wholeLine (i len : Z) : Range :=
  {| rstart := {| pline := i; character := 0 |};
     rend := {| pline := i; character := len |} |}.

Definition diagA : Diagnostic :=
  {| range := wholeLine 0 9; message := js "x"; severity := Warning |}.

Definition diagB : Diagnostic :=
  {| range := wholeLine 1 10; message := js "y"; severity := Error |}.

(** Activated, the sanity probe exited with 0. *)
Definition sReady : ExtState :=
  run sampleHost (initialState defaults []) [Activate; SanityExit (Some 0)].

(** Both documents were opened and linted, one diagnostic each. *)
Definition sLinted : ExtState :=
  run sampleHost sReady
      [Opened specA; Opened specB;
       LintLine 0 doc5 (js "/ws/a.spec:1:W: x"); LintClose 0;
       LintLine 1 doc5 (js "/ws/b.spec:2:E: y"); LintClose 1].

(** Then linting was switched off in the settings. *)
Definition sOff : ExtState := step sampleHost sLinted (ConfigChanged lintOff).

(** The linter path set to the empty string in the settings. *)
Definition emptyPath : Config :=
  {| cfgLint := None; cfgLsp := None;
     cfgRpmlintPath := Some []; cfgLspPath := None |}.


(** Three lines for [specA]: a warning, a line of something else, and the
    same warning again. *)
Definition sampleLines : list (DocText * jsstring) :=
  [(doc5, js "/ws/a.spec:1:W: x"); (doc5, js "Checked 1 file");
   (doc5, js "/ws/a.spec:1:W: x")].

(** ** Sessions *)

(** Events that come after activation: anything but [activate] again. *)
Definition afterActivation (e : Event) : bool :=
  match e with
  | Activate => false
  | _ => true
  end.

(** Events other than the outcome of the sanity probe. *)
Definition notSanityEvent (e : Event) : bool :=
  match e with
  | SanityExit _ | SanityError _ => false
  | _ => true
  end.

Definition isLintLine (e : Event) : bool :=
  match e with
  | LintLine _ _ _ => true
  | _ => false
  end.

(** The lines, among [es], that belong to run [i], in their order. *)
Definition linesOf (i : nat) (es : list Event) : list (DocText * jsstring) :=
  flat_map (fun e => match e with
                     | LintLine k doc line =>
                         if (k =? i)%nat then [(doc, line)] else []
                     | _ => []
                     end) es.

(** The run [lint] starts for a document, and the process it spawns. *)
Definition freshRun (document : TextDocument) : LintRun :=
  {| runUri := uri document;
     runPattern := Seq Bol (lits (fsPath (uri document)) patternTail);
     runArray := [] |}.

Definition lintCall (host : Host) (c : Config) (document : TextDocument)
    : SpawnCall :=
  let ctx := getLintContext host c document in
  {| command := path ctx; args := [fsPath (uri document)];
     spawnOptions := options ctx |}.

(** The linter path of the settings can be handed to [cp.spawn]. *)
Definition spawnable (c : Config) : bool :=
  negb (spawnThrows (nullish (cfgRpmlintPath c) (js "rpmlint"))).

(** The listeners of a registration that an exception cut short. *)
Definition halfRegistered : list (DocEvent * Handler) :=
  [(DidOpen, LintDocument); (DidSave, LintDocument)].

(** Nothing is registered and no run exists. *)
Definition dormant (s : ExtState) : Prop :=
  listeners s = [] /\ diagnostics s = None /\ runs s = [].

(** The three listeners are registered, once, and the collection exists. *)
Definition wired (s : ExtState) : Prop :=
  listeners s = registered /\ is_Some (diagnostics s) /\ sanityProbe s = None.

(** The open and save listeners are registered, once, and the collection
    exists; the close listener is missing. *)
Definition halfWired (s : ExtState) : Prop :=
  listeners s = halfRegistered /\ is_Some (diagnostics s)
  /\ sanityProbe s = None.

(** A pending sanity callback, if any, has the lint flag off. *)
Definition gateShut (s : ExtState) : Prop :=
  forall c, sanityProbe s = Some c -> cLint c = false.

(** Every process spawned so far, the pending callbacks and the client use
    the environment [LANG=C] and [PATH]. *)
Definition envEverywhere (host : Host) (s : ExtState) : Prop :=
  Forall (fun call => env (spawnOptions call) = lintEnv host) (spawned s)
  /\ (forall c, sanityProbe s = Some c ->
        env (options (cSanityContext c)) = lintEnv host)
  /\ (forall c, lspProbe s = Some c ->
        env (options (cSanityContext c)) = lintEnv host)
  /\ (forall client, lspClient s = Some client ->
        serverEnv client = lintEnv host).

(** Every run is for a document on disk, with the pattern of its path, and
    every diagnostic set is filed under such a document. *)
Definition onDiskOnly (s : ExtState) : Prop :=
  Forall (fun r => scheme (runUri r) = MODE_scheme
                   /\ runPattern r
                      = Seq Bol (lits (fsPath (runUri r)) patternTail))
         (runs s)
  /\ (forall m k, diagnostics s = Some m -> is_Some (m !! k) ->
        fst k = MODE_scheme).

(** Events other than the [error] event of a process. *)
Definition notErrorEvent (e : Event) : bool :=
  match e with
  | SanityError _ | LintError _ _ => false
  | _ => true
  end.

(** ** More of the sample session *)

(** A spec file that was never saved. *)
Definition untitledSpec : TextDocument :=
  {| uri := {| scheme := js "untitled"; fsPath := js "Untitled-1" |};
     languageId := js "rpm-spec"; isUntitled := true; text := doc5 |}.

Definition lspOff : Config :=
  {| cfgLint := None; cfgLsp := Some false;
     cfgRpmlintPath := None; cfgLspPath := None |}.

(** [specA] was opened and then saved before the first run ended: runs 0
    and 1 are both for it. *)
Definition sTwice : ExtState :=
  run sampleHost sReady [Opened specA; Saved specA].

Definition mixedLines : list Event :=
  [LintLine 1 doc5 (js "/ws/a.spec:2:E: y");
   LintLine 0 doc5 (js "/ws/a.spec:1:W: x");
   LintLine 1 doc5 (js "/ws/a.spec:3:W: z")].

(** * Properties *)

(** ** The matcher on one-character atoms *)

Lemma oneChar_Cls p n : oneChar (matchR (Cls p) n) p (fun _ g => g).
Proof. intros k s g. reflexivity. Qed.

Lemma oneChar_Grp nm p n :
  oneChar (matchR (Grp nm (Cls p)) n) p (fun x g => setGroup nm (Some [x]) g).
Proof.
  intros k [|x s'] g; simpl; [reflexivity|].
  replace (S (length s') - length s')%nat with 1%nat by lia.
  reflexivity.
Qed.

Lemma repeatMatcher_greedy m reset p upd :
  oneChar m p upd ->
  forall fuel k s g,
    (length s < fuel)%nat ->
    repeatMatcher m reset k fuel s g
    = greedy p (fun x acc => upd x (reset acc)) k s g.
Proof.
  intros Hm. induction fuel as [|fuel IH]; intros k s g Hlen; [lia|].
  simpl. rewrite Hm. destruct s as [|x s']; simpl; [reflexivity|].
  destruct (p x); [|reflexivity].
  assert (Hlt : (length s' <? S (length s'))%nat = true)
    by (apply Nat.ltb_lt; lia).
  rewrite Hlt, IH by (simpl in Hlen; lia). reflexivity.
Qed.

Lemma matchR_Star_oneChar r n p upd k s g :
  oneChar (matchR r n) p upd ->
  matchR (Star r) n k s g
  = greedy p (fun x acc => upd x (clearGroups (groupsIn r) acc)) k s g.
Proof.
  intros Hm. cbn [matchR]. apply repeatMatcher_greedy; [exact Hm | lia].
Qed.

Lemma matchR_Plus_oneChar r n p upd k s g :
  oneChar (matchR r n) p upd ->
  matchR (Plus r) n k s g
  = match s with
    | x :: s' =>
        if p x then
          greedy p (fun x acc => upd x (clearGroups (groupsIn r) acc)) k s'
                 (upd x (clearGroups (groupsIn r) g))
        else None
    | [] => None
    end.
Proof.
  intros Hm. cbn [matchR]. rewrite Hm. destruct s as [|x s']; [reflexivity|].
  destruct (p x); [|reflexivity].
  apply repeatMatcher_greedy; [exact Hm | lia].
Qed.

(** The longest candidate wins when the continuation accepts it and no
    longer one exists or succeeds. *)
Lemma greedy_take p upd k s xs tail g res :
  s = xs ++ tail ->
  forallb p xs = true ->
  k tail (applyAll upd xs g) = Some res ->
  (forall x t, tail = x :: t -> p x = true ->
     greedy p upd k t (upd x (applyAll upd xs g)) = None) ->
  greedy p upd k s g = Some res.
Proof.
  intros ->. revert g.
  induction xs as [|x xs IH]; intros g Hall Hk Hlong; simpl in *.
  - destruct tail as [|y t]; simpl; [exact Hk|].
    destruct (p y) eqn:Hy; [|exact Hk].
    rewrite (Hlong y t eq_refl Hy). exact Hk.
  - apply andb_true_iff in Hall as [Hx Hall]. rewrite Hx.
    rewrite (IH (upd x g) Hall Hk Hlong). reflexivity.
Qed.

(** The loop fails when the continuation refuses every candidate. *)
Lemma greedy_none p upd k s :
  (forall g e1 e2, s = e1 ++ e2 -> forallb p e1 = true -> k e2 g = None) ->
  forall g, greedy p upd k s g = None.
Proof.
  induction s as [|x s IH]; intros Hk g; simpl.
  - apply (Hk g [] []); reflexivity.
  - destruct (p x) eqn:Hx.
    + rewrite IH.
      * apply (Hk g [] (x :: s)); reflexivity.
      * intros g' e1 e2 -> Hall. apply (Hk g' (x :: e1) e2); [reflexivity|].
        simpl. rewrite Hx. exact Hall.
    + apply (Hk g [] (x :: s)); reflexivity.
Qed.

Lemma matchR_Plus_take r n p upd k s run tail g res :
  oneChar (matchR r n) p upd ->
  s = run ++ tail ->
  run <> [] ->
  forallb p run = true ->
  let upd' := fun x acc => upd x (clearGroups (groupsIn r) acc) in
  k tail (applyAll upd' run g) = Some res ->
  (forall x t, tail = x :: t -> p x = true ->
     greedy p upd' k t (upd' x (applyAll upd' run g)) = None) ->
  matchR (Plus r) n k s g = Some res.
Proof.
  intros Hm -> Hne Hall upd' Hk Hlong.
  rewrite (matchR_Plus_oneChar _ _ _ _ _ _ _ Hm).
  destruct run as [|x xs]; [congruence|]. simpl in *.
  apply andb_true_iff in Hall as [Hx Hall]. rewrite Hx.
  eapply greedy_take; [reflexivity | assumption..].
Qed.

Lemma matchR_Star_take r n p upd k s xs tail g res :
  oneChar (matchR r n) p upd ->
  s = xs ++ tail ->
  forallb p xs = true ->
  let upd' := fun x acc => upd x (clearGroups (groupsIn r) acc) in
  k tail (applyAll upd' xs g) = Some res ->
  (forall x t, tail = x :: t -> p x = true ->
     greedy p upd' k t (upd' x (applyAll upd' xs g)) = None) ->
  matchR (Star r) n k s g = Some res.
Proof.
  intros Hm Hs Hall upd' Hk Hlong.
  rewrite (matchR_Star_oneChar _ _ _ _ _ _ _ Hm).
  eapply greedy_take; eassumption.
Qed.

Lemma matchR_Seq r1 r2 n k s g :
  matchR (Seq r1 r2) n k s g = matchR r1 n (matchR r2 n k) s g.
Proof. reflexivity. Qed.

Lemma matchR_Grp nm r n k s g :
  matchR (Grp nm r) n k s g
  = matchR r n
      (fun s' g' =>
         k s' (setGroup nm (Some (firstn (length s - length s') s)) g'))
      s g.
Proof. reflexivity. Qed.

Lemma matchR_Opt r n k s g :
  matchR (Opt r) n k s g
  = match matchR r n (fun s' g' =>
                        if (length s' <? length s)%nat then k s' g' else None)
                  s (clearGroups (groupsIn r) g) with
    | Some res => Some res
    | None => k s g
    end.
Proof. reflexivity. Qed.

Lemma matchR_Chr_hit c n k s g : matchR (Chr c) n k (c :: s) g = k s g.
Proof. simpl. rewrite N.eqb_refl. reflexivity. Qed.

Lemma matchR_Chr_miss c n k s g :
  (forall t, s <> c :: t) -> matchR (Chr c) n k s g = None.
Proof.
  intros H. destruct s as [|x t]; simpl; [reflexivity|].
  destruct (N.eqb_spec x c) as [->|]; [|reflexivity].
  exfalso. exact (H t eq_refl).
Qed.

Lemma matchR_lits cs r n k s g :
  matchR (lits cs r) n k (cs ++ s) g = matchR r n k s g.
Proof.
  induction cs as [|c cs IH]; simpl; [reflexivity|].
  rewrite N.eqb_refl. exact IH.
Qed.

Lemma applyAll_plain (run : jsstring) g :
  applyAll (fun _ acc => clearGroups [] acc) run g = g.
Proof.
  revert g. induction run as [|x run IH]; intros g; [reflexivity|].
  simpl. apply IH.
Qed.

Lemma setGroup_twice nm v w g :
  setGroup nm v (setGroup nm w g) = setGroup nm v g.
Proof. destruct nm; reflexivity. Qed.

Lemma applyAll_capture nm (init : jsstring) c g :
  applyAll (fun x acc => setGroup nm (Some [x]) (clearGroups [nm] acc))
           (init ++ [c]) g
  = setGroup nm (Some [c]) g.
Proof.
  unfold applyAll. rewrite fold_left_app. simpl.
  rewrite setGroup_twice.
  revert g. induction init as [|x init IH]; intros g; simpl; [reflexivity|].
  rewrite IH, !setGroup_twice. reflexivity.
Qed.

Lemma firstn_consumed (a b : jsstring) :
  firstn (length (a ++ b) - length b) (a ++ b) = a.
Proof.
  rewrite length_app.
  replace (length a + length b - length b)%nat with (length a) by lia.
  rewrite firstn_app, Nat.sub_diag, firstn_all. simpl. apply app_nil_r.
Qed.

(** ** The stages of the pattern, from the end *)

Lemma patternTail_stages :
  patternTail = Seq (Chr colon) (Seq (Opt lineField) fromSpaces).
Proof. reflexivity. Qed.

Lemma plainMessage_inv msg :
  plainMessage msg = true ->
  msg <> [] /\ forallb isDot msg = true /\ beginsSpace msg = false.
Proof.
  destruct msg as [|x msg]; simpl; [discriminate|].
  intros H. apply andb_true_iff in H as [Hx Hdot].
  repeat split; [discriminate | exact Hdot |].
  unfold notSpace in Hx. destruct (isSpace x); [discriminate | reflexivity].
Qed.

Lemma noColon_In s : noColon s = true -> ~ List.In colon s.
Proof.
  unfold noColon. intros H Hin.
  rewrite forallb_forall in H. specialize (H colon Hin).
  rewrite N.eqb_refl in H. discriminate.
Qed.

Lemma body_stage n msg g :
  msg <> [] -> forallb isDot msg = true ->
  matchR (Seq (Grp Gbody (Plus (Cls isDot))) Eol) n kfinal msg g
  = Some (setGroup Gbody (Some msg) g).
Proof.
  intros Hne Hdot. rewrite matchR_Seq, matchR_Grp.
  eapply (matchR_Plus_take _ _ _ _ _ _ msg []);
    [apply oneChar_Cls | symmetry; apply app_nil_r | exact Hne | exact Hdot
    | | intros x t Hnil; discriminate Hnil].
  simpl groupsIn. rewrite applyAll_plain. simpl.
  rewrite Nat.sub_0_r, firstn_all. reflexivity.
Qed.

Lemma afterSeverity_stage n ws' msg g :
  forallb isSpace ws' = true -> plainMessage msg = true ->
  matchR afterSeverity n kfinal (colon :: ws' ++ msg) g
  = Some (setGroup Gbody (Some msg) g).
Proof.
  intros Hws Hmsg. destruct (plainMessage_inv _ Hmsg) as (Hne & Hdot & Hbegin).
  unfold afterSeverity.
  rewrite matchR_Seq, matchR_Chr_hit, matchR_Seq.
  eapply (matchR_Star_take _ _ _ _ _ _ ws' msg);
    [apply oneChar_Cls | reflexivity | exact Hws | | ].
  - simpl groupsIn. rewrite applyAll_plain. apply body_stage; assumption.
  - intros x t -> Hx. simpl in Hbegin. congruence.
Qed.

Lemma afterSeverity_needs_colon n k s g :
  (forall t, s <> colon :: t) -> matchR afterSeverity n k s g = None.
Proof.
  intros H. unfold afterSeverity. rewrite matchR_Seq.
  apply matchR_Chr_miss. exact H.
Qed.

Lemma no_colon_ahead (e1 e2 s : jsstring) :
  s = e1 ++ e2 -> forallb notSpace e1 = true ->
  ~ List.In colon (firstToken s) ->
  forall t, e2 <> colon :: t.
Proof.
  revert s. induction e1 as [|x e1 IH]; intros s -> Hall Hfree t ->; simpl in *.
  - apply Hfree. left. reflexivity.
  - apply andb_true_iff in Hall as [Hx Hall]. rewrite Hx in Hfree.
    apply (IH (e1 ++ colon :: t) eq_refl Hall) with (t := t); [|reflexivity].
    intros Hin. apply Hfree. right. exact Hin.
Qed.

Lemma fromSeverity_stage n init c ws' msg g :
  forallb notSpace (init ++ [c]) = true ->
  forallb isSpace ws' = true -> plainMessage msg = true ->
  ~ List.In colon (firstToken (ws' ++ msg)) ->
  matchR fromSeverity n kfinal (init ++ [c] ++ colon :: ws' ++ msg) g
  = Some (setGroup Gbody (Some msg) (setGroup Gseverity (Some [c]) g)).
Proof.
  intros Hrun Hws Hmsg Hfree. unfold fromSeverity. rewrite matchR_Seq.
  eapply (matchR_Plus_take _ _ _ _ _ _ (init ++ [c]) (colon :: ws' ++ msg));
    [apply oneChar_Grp | rewrite <- app_assoc; reflexivity
    | destruct init; discriminate | exact Hrun | | ].
  - simpl groupsIn. cbv beta. rewrite applyAll_capture.
    apply afterSeverity_stage; assumption.
  - intros x t Ht _. injection Ht as <- <-.
    apply greedy_none. intros g' e1 e2 Hsplit Hall.
    apply afterSeverity_needs_colon.
    eapply no_colon_ahead; eassumption.
Qed.

Lemma fromSpaces_stage n ws init c ws' msg g :
  forallb isSpace ws = true ->
  forallb notSpace (init ++ [c]) = true ->
  forallb isSpace ws' = true -> plainMessage msg = true ->
  ~ List.In colon (firstToken (ws' ++ msg)) ->
  matchR fromSpaces n kfinal (ws ++ init ++ [c] ++ colon :: ws' ++ msg) g
  = Some (setGroup Gbody (Some msg) (setGroup Gseverity (Some [c]) g)).
Proof.
  intros Hws Hrun Hws' Hmsg Hfree. unfold fromSpaces. rewrite matchR_Seq.
  eapply (matchR_Star_take _ _ _ _ _ _ ws);
    [apply oneChar_Cls | reflexivity | exact Hws | | ].
  - simpl groupsIn. rewrite applyAll_plain.
    apply fromSeverity_stage; assumption.
  - intros x t Ht Hx. exfalso.
    assert (Hnx : notSpace x = true).
    { destruct init as [|y init]; simpl in Ht, Hrun; injection Ht as <- _;
        apply andb_true_iff in Hrun as [Hy _]; exact Hy. }
    unfold notSpace in Hnx. rewrite Hx in Hnx. discriminate.
Qed.

Lemma lineField_taken n d rest k g res :
  d <> [] -> forallb isDigit d = true ->
  k rest (setGroup Gline (Some d) g) = Some res ->
  matchR lineField n k (d ++ colon :: rest) g = Some res.
Proof.
  intros Hne Hd Hk. unfold lineField. rewrite matchR_Seq, matchR_Grp.
  eapply (matchR_Plus_take _ _ _ _ _ _ d (colon :: rest));
    [apply oneChar_Cls | reflexivity | exact Hne | exact Hd | | ].
  - simpl groupsIn. rewrite applyAll_plain, matchR_Chr_hit.
    rewrite (firstn_consumed d (colon :: rest)). exact Hk.
  - intros x t Ht Hx. injection Ht as <- _. discriminate Hx.
Qed.

Lemma optLine_taken n d rest g res :
  d <> [] -> forallb isDigit d = true ->
  matchR fromSpaces n kfinal rest (setGroup Gline (Some d) g) = Some res ->
  matchR (Seq (Opt lineField) fromSpaces) n kfinal (d ++ colon :: rest) g
  = Some res.
Proof.
  intros Hne Hd Hk. rewrite matchR_Seq, matchR_Opt.
  erewrite lineField_taken; [reflexivity | exact Hne | exact Hd |].
  assert (Hlt : (length rest <? length (d ++ colon :: rest))%nat = true).
  { apply Nat.ltb_lt. rewrite length_app. simpl. lia. }
  rewrite Hlt.
  change (clearGroups (groupsIn lineField) g) with (setGroup Gline None g).
  rewrite setGroup_twice. exact Hk.
Qed.

Lemma optLine_skipped n s g :
  beginsDigit s = false ->
  matchR (Seq (Opt lineField) fromSpaces) n kfinal s g
  = matchR fromSpaces n kfinal s g.
Proof.
  intros Hs. rewrite matchR_Seq, matchR_Opt.
  unfold lineField at 1. rewrite matchR_Seq, matchR_Grp.
  rewrite (matchR_Plus_oneChar _ _ _ _ _ _ _ (oneChar_Cls isDigit n)).
  destruct s as [|x s]; [reflexivity|].
  simpl in Hs. rewrite Hs. reflexivity.
Qed.

(** ** The pattern as built from the file path *)

Lemma isSyntaxChar_backslash : isSyntaxChar backslash = true.
Proof. reflexivity. Qed.

Lemma parseChars_escapeRegExp (s : jsstring) :
  parseChars false (escapeRegExp s) = Some s.
Proof.
  induction s as [|c s IH]; [reflexivity|].
  simpl. destruct (isSyntaxChar c) eqn:Hc.
  - simpl. rewrite Hc, IH. reflexivity.
  - simpl. destruct (N.eqb_spec c backslash) as [->|_].
    + rewrite isSyntaxChar_backslash in Hc. discriminate.
    + rewrite Hc, IH. reflexivity.
Qed.

Lemma diagnosticPattern_built filePath :
  diagnosticPattern filePath = Some (Seq Bol (lits filePath patternTail)).
Proof.
  unfold diagnosticPattern. rewrite parseChars_escapeRegExp. reflexivity.
Qed.

Lemma scan_Bol_later r n s :
  (length s < n)%nat -> scan (Seq Bol r) n s = None.
Proof.
  induction s as [|x s IH]; intros Hlen.
  - simpl in *. destruct n; [lia | reflexivity].
  - cbn [scan]. rewrite matchR_Seq. cbn [matchR].
    destruct (Nat.eqb_spec (length (x :: s)) n); [lia|].
    apply IH. simpl in Hlen. lia.
Qed.

Lemma exec_anchored r input :
  exec (Seq Bol r) input = matchR r (length input) kfinal input noGroups.
Proof.
  unfold exec. destruct input as [|x s].
  - simpl. destruct (matchR r 0 _ [] noGroups); reflexivity.
  - cbn [scan]. rewrite matchR_Seq. cbn [matchR].
    rewrite Nat.eqb_refl. fold kfinal.
    destruct (matchR r (length (x :: s)) kfinal (x :: s) noGroups);
      [reflexivity|].
    apply scan_Bol_later. simpl. lia.
Qed.

(** A line that does not start with the path and a colon is refused. *)
Lemma lits_refuses cs c r n k s g :
  (forall rest, s <> cs ++ c :: rest) ->
  matchR (lits cs (Seq (Chr c) r)) n k s g = None.
Proof.
  revert s. induction cs as [|x cs IH]; intros s H.
  - simpl lits. rewrite matchR_Seq. apply matchR_Chr_miss. exact H.
  - simpl. destruct s as [|y s]; [reflexivity|].
    destruct (N.eqb_spec y x) as [->|]; [|reflexivity].
    apply IH. intros rest ->. exact (H rest eq_refl).
Qed.

Lemma exec_needs_prefix filePath pattern line :
  diagnosticPattern filePath = Some pattern ->
  (forall rest, line <> filePath ++ colon :: rest) ->
  exec pattern line = None.
Proof.
  rewrite diagnosticPattern_built. intros [= <-] H.
  rewrite exec_anchored. unfold patternTail.
  apply lits_refuses. exact H.
Qed.

Lemma beginsDigit_app (a b : jsstring) :
  a <> [] -> beginsDigit (a ++ b) = beginsDigit a.
Proof. destruct a; [congruence | reflexivity]. Qed.

Lemma exec_shape filePath pattern o ws init c ws' msg :
  diagnosticPattern filePath = Some pattern ->
  lineFieldOk o (ws ++ init ++ [c]) = true ->
  forallb isSpace ws = true ->
  forallb notSpace (init ++ [c]) = true ->
  forallb isSpace ws' = true ->
  plainMessage msg = true ->
  noColon (firstToken (ws' ++ msg)) = true ->
  exec pattern
       (filePath ++ colon :: lineFieldText o ++ ws ++ init ++ [c]
                 ++ colon :: ws' ++ msg)
  = Some {| gline := o; gseverity := Some [c]; gbody := Some msg |}.
Proof.
  rewrite diagnosticPattern_built. intros [= <-] Ho Hws Hrun Hws' Hmsg Hfree.
  apply noColon_In in Hfree.
  rewrite exec_anchored, matchR_lits, patternTail_stages.
  rewrite matchR_Seq, matchR_Chr_hit.
  destruct o as [d|]; simpl in Ho; simpl lineFieldText.
  - assert (Hne : d <> []) by (destruct d; [discriminate | discriminate]).
    assert (Hd : forallb isDigit d = true) by (destruct d; [discriminate | exact Ho]).
    rewrite <- app_assoc.
    apply (optLine_taken _ d (ws ++ init ++ [c] ++ colon :: ws' ++ msg));
      [exact Hne | exact Hd |].
    rewrite fromSpaces_stage by assumption. reflexivity.
  - rewrite app_nil_l, optLine_skipped.
    + rewrite fromSpaces_stage by assumption. reflexivity.
    + rewrite !app_assoc, <- (app_assoc ws), beginsDigit_app;
        [destruct (beginsDigit (ws ++ init ++ [c])); [discriminate | reflexivity]|].
      destruct ws, init; discriminate.
Qed.

(** ** From the match to the diagnostic *)

Lemma startsWith_app (a rest : jsstring) : startsWith a (a ++ rest) = true.
Proof.
  induction a as [|x a IH]; simpl; [reflexivity|].
  rewrite N.eqb_refl. exact IH.
Qed.

Lemma startsWith_false (a s : jsstring) :
  startsWith a s = false -> forall rest, s <> a ++ rest.
Proof.
  intros H rest ->. rewrite startsWith_app in H. discriminate.
Qed.

Lemma lineCount_pos doc : 1 <= lineCount doc.
Proof. unfold lineCount, docLines. simpl length. lia. Qed.

Lemma safeLineNumber_range x count :
  0 <= safeLineNumber x count <= Z.max (count - 1) 0.
Proof. unfold safeLineNumber. lia. Qed.

(** [lineAt] does not throw on a clamped index. *)
Lemma lineAt_safe doc x :
  exists r,
    lineAt doc (safeLineNumber x (lineCount doc)) = Some r
    /\ pline (rstart r) = safeLineNumber x (lineCount doc).
Proof.
  pose proof (lineCount_pos doc) as Hpos.
  pose proof (safeLineNumber_range x (lineCount doc)) as Hr.
  set (i := safeLineNumber x (lineCount doc)) in *.
  unfold lineAt.
  assert (Hin : (0 <=? i) && (i <? lineCount doc) = true).
  { apply andb_true_iff. split; [apply Z.leb_le | apply Z.ltb_lt]; lia. }
  rewrite Hin.
  destruct (nth_error (docLines doc) (Z.to_nat i)) as [t|] eqn:Hn.
  - eexists. split; reflexivity.
  - apply nth_error_None in Hn. unfold lineCount in *. lia.
Qed.

Lemma SEVERITY_char c :
  nullish (SEVERITY (nullish (Some [c]) (js "W"))) Warning
  = if (c =? charE)%N then Error else Warning.
Proof.
  unfold SEVERITY, nullish. change (js "W") with [charW].
  change (js "E") with [charE].
  destruct (N.eqb_spec c charE) as [->|Hne].
  - repeat case_decide; try reflexivity; try discriminate; congruence.
  - repeat case_decide; try reflexivity; congruence.
Qed.

Lemma lineDiagnostic_match doc pattern line g :
  exec pattern line = Some g ->
  exists d,
    lineDiagnostic doc pattern line = Produced d
    /\ lineIndex d = safeLineNumber (lineNumberOf g) (lineCount doc)
    /\ message d = nullish (gbody g) (js "Unknown rpmlint warning")
    /\ severity d
       = nullish (SEVERITY (nullish (gseverity g) (js "W"))) Warning.
Proof.
  intros Hex. unfold lineDiagnostic. rewrite Hex.
  destruct (lineAt_safe doc (lineNumberOf g)) as (r & Hr & Hp).
  rewrite Hr. eexists. split; [reflexivity|].
  unfold lineIndex. simpl. auto.
Qed.

Lemma parseLine_pattern doc filePath line :
  parseLine doc filePath line
  = lineDiagnostic doc (Seq Bol (lits filePath patternTail)) line.
Proof. unfold parseLine. rewrite diagnosticPattern_built. reflexivity. Qed.

Lemma parseLine_shape doc filePath o ws init c ws' msg :
  lineFieldOk o (ws ++ init ++ [c]) = true ->
  forallb isSpace ws = true ->
  forallb notSpace (init ++ [c]) = true ->
  forallb isSpace ws' = true ->
  plainMessage msg = true ->
  noColon (firstToken (ws' ++ msg)) = true ->
  exists d,
    parseLine doc filePath
      (filePath ++ colon :: lineFieldText o ++ ws ++ init ++ [c]
                ++ colon :: ws' ++ msg) = Produced d
    /\ lineIndex d = safeLineNumber (fieldLineNumber o) (lineCount doc)
    /\ message d = msg
    /\ severity d = if (c =? charE)%N then Error else Warning.
Proof.
  intros Ho Hws Hrun Hws' Hmsg Hfree.
  rewrite parseLine_pattern.
  pose proof (exec_shape filePath _ o ws init c ws' msg
                (diagnosticPattern_built filePath)
                Ho Hws Hrun Hws' Hmsg Hfree) as Hex.
  destruct (lineDiagnostic_match doc _ _ _ Hex) as (d & Hd & Hi & Hm & Hs).
  exists d. split; [exact Hd|]. split; [|split].
  - rewrite Hi. f_equal. unfold lineNumberOf. simpl gline.
    destruct o as [[|x dg]|]; simpl in *; [discriminate | reflexivity..].
  - rewrite Hm. reflexivity.
  - rewrite Hs. simpl gseverity. apply SEVERITY_char.
Qed.

(** ** Every match has the expected shape *)

Lemma greedy_inv p upd k s :
  forall g res,
    greedy p upd k s g = Some res ->
    exists e1 e2,
      s = e1 ++ e2 /\ forallb p e1 = true
      /\ k e2 (applyAll upd e1 g) = Some res.
Proof.
  induction s as [|x s IH]; intros g res H; simpl in H.
  - exists [], []. auto.
  - destruct (p x) eqn:Hx; [|exists [], (x :: s); auto].
    destruct (greedy p upd k s (upd x g)) as [r|] eqn:Hg.
    + injection H as ->. destruct (IH _ _ Hg) as (e1 & e2 & -> & Hall & Hk).
      exists (x :: e1), e2. simpl. rewrite Hx. auto.
    + exists [], (x :: s). auto.
Qed.

Lemma matchR_Star_inv r n p upd k s g res :
  oneChar (matchR r n) p upd ->
  matchR (Star r) n k s g = Some res ->
  exists e1 e2,
    s = e1 ++ e2 /\ forallb p e1 = true
    /\ k e2 (applyAll (fun x acc => upd x (clearGroups (groupsIn r) acc)) e1 g)
       = Some res.
Proof.
  intros Hm H. rewrite (matchR_Star_oneChar _ _ _ _ _ _ _ Hm) in H.
  apply greedy_inv in H. exact H.
Qed.

Lemma matchR_Plus_inv r n p upd k s g res :
  oneChar (matchR r n) p upd ->
  matchR (Plus r) n k s g = Some res ->
  exists e1 e2,
    s = e1 ++ e2 /\ e1 <> [] /\ forallb p e1 = true
    /\ k e2 (applyAll (fun x acc => upd x (clearGroups (groupsIn r) acc)) e1 g)
       = Some res.
Proof.
  intros Hm H. rewrite (matchR_Plus_oneChar _ _ _ _ _ _ _ Hm) in H.
  destruct s as [|x s]; [discriminate|].
  destruct (p x) eqn:Hx; [|discriminate].
  apply greedy_inv in H. destruct H as (e1 & e2 & -> & Hall & Hk).
  exists (x :: e1), e2. simpl. rewrite Hx. repeat split; auto; discriminate.
Qed.

Lemma matchR_Chr_inv c n k s g res :
  matchR (Chr c) n k s g = Some res ->
  exists t, s = c :: t /\ k t g = Some res.
Proof.
  destruct s as [|x t]; simpl; [discriminate|].
  destruct (N.eqb_spec x c) as [->|]; [|discriminate].
  intros H. exists t. auto.
Qed.

Lemma matchR_lits_inv cs r n k s g res :
  matchR (lits cs r) n k s g = Some res ->
  exists rest, s = cs ++ rest /\ matchR r n k rest g = Some res.
Proof.
  revert s. induction cs as [|c cs IH]; intros s H.
  - exists s. auto.
  - simpl lits in H. rewrite matchR_Seq in H.
    apply matchR_Chr_inv in H as (t & -> & H).
    destruct (IH _ H) as (rest & -> & Hr). exists rest. auto.
Qed.

Lemma body_stage_inv n s g res :
  matchR (Seq (Grp Gbody (Plus (Cls isDot))) Eol) n kfinal s g = Some res ->
  s <> [] /\ forallb isDot s = true /\ res = setGroup Gbody (Some s) g.
Proof.
  rewrite matchR_Seq, matchR_Grp. intros H.
  apply (matchR_Plus_inv _ _ _ _ _ _ _ _ (oneChar_Cls isDot n)) in H.
  destruct H as (e1 & e2 & -> & Hne & Hall & Hk).
  simpl groupsIn in Hk. rewrite applyAll_plain in Hk.
  destruct e2 as [|y e2]; [|discriminate Hk].
  rewrite app_nil_r in *. simpl in Hk.
  rewrite Nat.sub_0_r, firstn_all in Hk. injection Hk as <-. auto.
Qed.

Lemma afterSeverity_inv n s g res :
  matchR afterSeverity n kfinal s g = Some res ->
  exists ws' body,
    s = colon :: ws' ++ body /\ forallb isSpace ws' = true
    /\ body <> [] /\ forallb isDot body = true
    /\ res = setGroup Gbody (Some body) g.
Proof.
  unfold afterSeverity. rewrite matchR_Seq. intros H.
  apply matchR_Chr_inv in H as (t & -> & H). rewrite matchR_Seq in H.
  apply (matchR_Star_inv _ _ _ _ _ _ _ _ (oneChar_Cls isSpace n)) in H.
  destruct H as (ws' & body & -> & Hws & Hk).
  simpl groupsIn in Hk. rewrite applyAll_plain in Hk.
  apply body_stage_inv in Hk as (Hne & Hdot & ->).
  exists ws', body. auto.
Qed.

Lemma fromSpaces_inv n s g res :
  matchR fromSpaces n kfinal s g = Some res ->
  exists ws init c ws' body,
    s = ws ++ init ++ [c] ++ colon :: ws' ++ body
    /\ forallb isSpace ws = true
    /\ forallb notSpace (init ++ [c]) = true
    /\ forallb isSpace ws' = true
    /\ body <> [] /\ forallb isDot body = true
    /\ res = setGroup Gbody (Some body) (setGroup Gseverity (Some [c]) g).
Proof.
  unfold fromSpaces. rewrite matchR_Seq. intros H.
  apply (matchR_Star_inv _ _ _ _ _ _ _ _ (oneChar_Cls isSpace n)) in H.
  destruct H as (ws & s1 & -> & Hws & H).
  simpl groupsIn in H. rewrite applyAll_plain in H.
  unfold fromSeverity in H. rewrite matchR_Seq in H.
  apply (matchR_Plus_inv _ _ _ _ _ _ _ _ (oneChar_Grp Gseverity notSpace n)) in H.
  destruct H as (run & s2 & -> & Hne & Hrun & H).
  destruct (exists_last Hne) as (init & c & ->).
  simpl groupsIn in H. cbv beta in H. rewrite applyAll_capture in H.
  apply afterSeverity_inv in H as (ws' & body & -> & Hws' & Hb & Hdot & ->).
  exists ws, init, c, ws', body. rewrite <- !app_assoc. auto 10.
Qed.

Lemma lineField_inv n k s g res :
  matchR lineField n k s g = Some res ->
  exists d rest,
    s = d ++ colon :: rest /\ isNumeral d = true
    /\ k rest (setGroup Gline (Some d) g) = Some res.
Proof.
  unfold lineField. rewrite matchR_Seq, matchR_Grp. intros H.
  apply (matchR_Plus_inv _ _ _ _ _ _ _ _ (oneChar_Cls isDigit n)) in H.
  destruct H as (d & e2 & -> & Hne & Hd & H).
  simpl groupsIn in H. rewrite applyAll_plain in H.
  apply matchR_Chr_inv in H as (rest & -> & H).
  rewrite firstn_consumed in H.
  exists d, rest. repeat split; [|exact H].
  destruct d; [congruence | exact Hd].
Qed.

Lemma optLine_inv n s res :
  matchR (Seq (Opt lineField) fromSpaces) n kfinal s noGroups = Some res ->
  exists o rest,
    s = lineFieldText o ++ rest
    /\ lineFieldOk o [] = true
    /\ matchR fromSpaces n kfinal rest (setGroup Gline o noGroups) = Some res.
Proof.
  rewrite matchR_Seq, matchR_Opt. intros H.
  match type of H with
  | match ?inner with _ => _ end = _ => destruct inner as [r|] eqn:Hin
  end.
  - injection H as ->.
    apply lineField_inv in Hin as (d & rest & -> & Hd & Hk).
    destruct (length rest <? length (d ++ colon :: rest))%nat; [|discriminate].
    exists (Some d), rest. simpl lineFieldText. rewrite <- app_assoc.
    repeat split; [exact Hd | exact Hk].
  - exists None, s. repeat split. exact H.
Qed.

(** Whatever line the pattern matches has the expected shape, and the groups
    are its parts: the numeral after the path if there is one, the last
    character of the run before the colon that precedes the message, and the
    message. *)
Lemma matched_line_shape filePath pattern line g :
  diagnosticPattern filePath = Some pattern ->
  exec pattern line = Some g ->
  exists o ws init c ws' body,
    line = filePath ++ colon :: lineFieldText o ++ ws ++ init ++ [c]
                    ++ colon :: ws' ++ body
    /\ lineFieldOk o [] = true
    /\ forallb isSpace ws = true
    /\ forallb notSpace (init ++ [c]) = true
    /\ forallb isSpace ws' = true
    /\ body <> [] /\ forallb isDot body = true
    /\ g = {| gline := o; gseverity := Some [c]; gbody := Some body |}.
Proof.
  rewrite diagnosticPattern_built. intros [= <-] H.
  rewrite exec_anchored in H.
  apply matchR_lits_inv in H as (r1 & -> & H).
  rewrite patternTail_stages, matchR_Seq in H.
  apply matchR_Chr_inv in H as (r2 & -> & H).
  apply optLine_inv in H as (o & r3 & -> & Ho & H).
  apply fromSpaces_inv in H
    as (ws & init & c & ws' & body & -> & Hws & Hrun & Hws' & Hb & Hdot & ->).
  exists o, ws, init, c, ws', body. repeat split; assumption.
Qed.

(** ** The parser claims *)

(** C2, as amended.  For a line [<path>:<n>:<sev>:<msg>] where [<n>] is a
    decimal numeral with 1 <= n <= lineCount, [<sev>] is one non-whitespace
    character, and [<msg>] is not empty, holds no line terminator, does not
    start with whitespace and has no colon in its first
    whitespace-delimited token, the handler produces a diagnostic at line
    index n-1 with message [<msg>] and severity Error for E, Warning for W
    and Warning for any other character. *)
Theorem numbered_line_diagnostic doc filePath digits sev msg :
  isNumeral digits = true ->
  1 <= Number digits <= lineCount doc ->
  notSpace sev = true ->
  plainMessage msg = true ->
  noColon (firstToken msg) = true ->
  exists d,
    parseLine doc filePath
      (filePath ++ colon :: digits ++ colon :: sev :: colon :: msg)
    = Produced d
    /\ lineIndex d = Number digits - 1
    /\ message d = msg
    /\ (sev = charE -> severity d = Error)
    /\ (sev = charW -> severity d = Warning)
    /\ (sev <> charE -> severity d = Warning).
Proof.
  intros Hnum Hrange Hsev Hmsg Hfree.
  destruct (parseLine_shape doc filePath (Some digits) [] [] sev [] msg)
    as (d & Hd & Hi & Hm & Hs); try assumption; try reflexivity.
  { simpl. rewrite Hsev. reflexivity. }
  exists d. split.
  - rewrite <- Hd. f_equal. f_equal. f_equal. simpl.
    rewrite <- app_assoc. reflexivity.
  - split; [|split; [exact Hm|]].
    + rewrite Hi. unfold fieldLineNumber, safeLineNumber. lia.
    + rewrite Hs. repeat split.
      * intros ->. reflexivity.
      * intros ->. reflexivity.
      * intros Hne. destruct (N.eqb_spec sev charE); [contradiction | reflexivity].
Qed.

Lemma numbered_line_diagnostic_witness :
  (isNumeral (js "3") = true
   /\ 1 <= Number (js "3") <= lineCount doc5
   /\ notSpace charW = true
   /\ plainMessage (js "trailing whitespace") = true
   /\ noColon (firstToken (js "trailing whitespace")) = true)
  /\ exists d,
       parseLine doc5 specPath (js "/ws/pkg.spec:3:W:trailing whitespace")
       = Produced d
       /\ lineIndex d = 2
       /\ message d = js "trailing whitespace"
       /\ (charW = charE -> severity d = Error)
       /\ (charW = charW -> severity d = Warning)
       /\ (charW <> charE -> severity d = Warning).
Proof.
  split.
  - repeat split; try reflexivity; vm_compute; discriminate.
  - apply (numbered_line_diagnostic doc5 specPath (js "3") charW
             (js "trailing whitespace")).
    + reflexivity.
    + split; vm_compute; discriminate.
    + reflexivity.
    + reflexivity.
    + reflexivity.
Defined.

(** C2 as stated fails: on [/ws/pkg.spec:3:E:url:bad], a line of the form
    [<path>:<n>:<sev>:<msg>] with n = 3 in a five-line document, severity
    character E and message [url:bad], the diagnostic produced has message
    [bad] and severity Warning. *)
Lemma numbered_line_counterexample :
  exists d,
    parseLine doc5 specPath
      (specPath ++ colon :: js "3" ++ colon :: charE :: colon :: js "url:bad")
    = Produced d
    /\ lineIndex d = 2
    /\ message d = js "bad"
    /\ message d <> js "url:bad"
    /\ severity d = Warning
    /\ severity d <> Error.
Proof.
  eexists. split; [vm_compute; reflexivity|].
  repeat split; try reflexivity; discriminate.
Qed.

(** C3.  For every line the pattern matches, a diagnostic is produced and
    its line index lies in [0, max(lineCount-1, 0)]: index 0 when the line
    number is left out or is below 1, index lineCount-1 when it is above
    lineCount, and index 0 in a document of a single (empty) line.  The
    line number is the [line] group, which is the numeral written right
    after the path and its colon, if there is one.  The clamp alone would
    give 0 for a line count of 0 (last part). *)
Theorem line_index_clamped doc filePath pattern line g :
  diagnosticPattern filePath = Some pattern ->
  exec pattern line = Some g ->
  exists d,
    parseLine doc filePath line = Produced d
    /\ 0 <= lineIndex d <= Z.max (lineCount doc - 1) 0
    /\ lineIndex d <= lineCount doc - 1
    /\ (gline g = None -> lineIndex d = 0)
    /\ (forall digits, gline g = Some digits ->
          (Number digits < 1 -> lineIndex d = 0)
          /\ (lineCount doc < Number digits -> lineIndex d = lineCount doc - 1))
    /\ (lineCount doc = 1 -> lineIndex d = 0)
    /\ (exists rest,
          line = filePath ++ colon :: lineFieldText (gline g) ++ rest
          /\ lineFieldOk (gline g) [] = true)
    /\ (forall n, safeLineNumber n 0 = 0).
Proof.
  intros Hpat Hex. unfold parseLine. rewrite Hpat.
  destruct (lineDiagnostic_match doc _ _ _ Hex) as (d & Hd & Hi & _).
  pose proof (lineCount_pos doc) as Hpos.
  pose proof (safeLineNumber_range (lineNumberOf g) (lineCount doc)) as Hr.
  exists d. split; [exact Hd|]. rewrite Hi.
  split; [exact Hr|]. split; [lia|]. split; [|split; [|split; [|split]]];
    [| | |destruct (matched_line_shape _ _ _ _ Hpat Hex)
             as (o & ws & init & c & ws' & body & -> & Ho & _ & _ & _ & _ & _ & ->);
           eexists; split; [reflexivity | exact Ho]
     |intros n; unfold safeLineNumber; lia].
  - intros Hnone. unfold lineNumberOf, safeLineNumber. rewrite Hnone. lia.
  - intros digits Hsome. unfold lineNumberOf, safeLineNumber. rewrite Hsome.
    destruct digits as [|x digits]; [change (Number []) with 0|]; split; lia.
  - lia.
Qed.

Lemma line_index_clamped_witness :
  (diagnosticPattern specPath = Some (Seq Bol (lits specPath patternTail))
   /\ exec (Seq Bol (lits specPath patternTail)) (js "/ws/pkg.spec:99:E: x")
      = Some {| gline := Some (js "99"); gseverity := Some (js "E");
                gbody := Some (js "x") |})
  /\ exists d,
       parseLine doc5 specPath (js "/ws/pkg.spec:99:E: x") = Produced d
       /\ 0 <= lineIndex d <= Z.max (lineCount doc5 - 1) 0
       /\ lineIndex d <= lineCount doc5 - 1
       /\ (Some (js "99") = None -> lineIndex d = 0)
       /\ (forall digits, Some (js "99") = Some digits ->
             (Number digits < 1 -> lineIndex d = 0)
             /\ (lineCount doc5 < Number digits ->
                 lineIndex d = lineCount doc5 - 1))
       /\ (lineCount doc5 = 1 -> lineIndex d = 0)
       /\ (exists rest,
             js "/ws/pkg.spec:99:E: x"
             = specPath ++ colon :: lineFieldText (Some (js "99")) ++ rest
             /\ lineFieldOk (Some (js "99")) [] = true)
       /\ (forall n, safeLineNumber n 0 = 0).
Proof.
  split.
  - split; vm_compute; reflexivity.
  - apply (line_index_clamped doc5 specPath
             (Seq Bol (lits specPath patternTail))
             (js "/ws/pkg.spec:99:E: x")
             {| gline := Some (js "99"); gseverity := Some (js "E");
                gbody := Some (js "x") |}).
    + vm_compute; reflexivity.
    + vm_compute; reflexivity.
Defined.

(** C4.  A line that does not begin with the document's file path followed
    by a colon, or that the pattern does not match for any other reason,
    produces no diagnostic: the array is left as it was. *)
Theorem foreign_line_ignored doc filePath pattern line array :
  diagnosticPattern filePath = Some pattern ->
  startsWith (filePath ++ [colon]) line = false
  \/ exec pattern line = None ->
  exec pattern line = None
  /\ parseLine doc filePath line = NoMatch
  /\ onLine doc pattern line array = array.
Proof.
  intros Hpat Hline.
  assert (Hex : exec pattern line = None).
  { destruct Hline as [Hpre|Hex]; [|exact Hex].
    apply (exec_needs_prefix filePath _ _ Hpat).
    intros rest ->.
    apply (startsWith_false _ _ Hpre rest).
    rewrite <- app_assoc. reflexivity. }
  split; [exact Hex|].
  unfold onLine, parseLine. rewrite Hpat. unfold lineDiagnostic.
  rewrite Hex. split; reflexivity.
Qed.

Lemma foreign_line_ignored_witness :
  (diagnosticPattern specPath = Some (Seq Bol (lits specPath patternTail))
   /\ (startsWith (specPath ++ [colon]) (js "unrelated text") = false
       \/ exec (Seq Bol (lits specPath patternTail)) (js "unrelated text")
          = None))
  /\ exec (Seq Bol (lits specPath patternTail)) (js "unrelated text") = None
  /\ parseLine doc5 specPath (js "unrelated text") = NoMatch
  /\ onLine doc5 (Seq Bol (lits specPath patternTail)) (js "unrelated text") []
     = [].
Proof.
  split.
  - split; [vm_compute; reflexivity | left; reflexivity].
  - apply (foreign_line_ignored doc5 specPath
             (Seq Bol (lits specPath patternTail)) (js "unrelated text") []).
    + vm_compute; reflexivity.
    + left. reflexivity.
Defined.

(** C10.  The field before the message may be any run [init ++ [c]] of one
    or more non-whitespace characters, with or without a line number before
    it and whitespace around it: such a line still matches, and the severity
    is that of the last character [c] of the run, Error for E, Warning for W
    and for every other character (first part; the message is as in C2, and a
    line-number field that is left out must not be followed by a digit).
    Conversely, whenever a line yields a diagnostic, the line has that shape
    and the severity is that of the last character of the run before the
    colon that precedes the message (second part). *)
Theorem severity_from_last_character doc filePath :
  (forall o ws init c ws' msg,
      lineFieldOk o (ws ++ init ++ [c]) = true ->
      forallb isSpace ws = true ->
      forallb notSpace (init ++ [c]) = true ->
      forallb isSpace ws' = true ->
      plainMessage msg = true ->
      noColon (firstToken (ws' ++ msg)) = true ->
      exists d,
        parseLine doc filePath
          (filePath ++ colon :: lineFieldText o ++ ws ++ init ++ [c]
                    ++ colon :: ws' ++ msg) = Produced d
        /\ (c = charE -> severity d = Error)
        /\ (c = charW -> severity d = Warning)
        /\ (c <> charE -> severity d = Warning)
        /\ message d = msg)
  /\ (forall line d,
        parseLine doc filePath line = Produced d ->
        exists o ws init c ws' body,
          line = filePath ++ colon :: lineFieldText o ++ ws ++ init ++ [c]
                          ++ colon :: ws' ++ body
          /\ forallb isSpace ws = true
          /\ forallb notSpace (init ++ [c]) = true
          /\ forallb isSpace ws' = true
          /\ message d = body
          /\ (c = charE -> severity d = Error)
          /\ (c = charW -> severity d = Warning)
          /\ (c <> charE -> severity d = Warning)).
Proof.
  split.
  - intros o ws init c ws' msg Ho Hws Hrun Hws' Hmsg Hfree.
    destruct (parseLine_shape doc filePath o ws init c ws' msg)
      as (d & Hd & _ & Hm & Hs); try assumption.
    exists d. split; [exact Hd|]. rewrite Hs. repeat split.
    + intros ->. reflexivity.
    + intros ->. reflexivity.
    + intros Hne. destruct (N.eqb_spec c charE); [contradiction | reflexivity].
    + exact Hm.
  - intros line d Hd. rewrite parseLine_pattern in Hd.
    destruct (exec (Seq Bol (lits filePath patternTail)) line) as [g|] eqn:Hex;
      [|unfold lineDiagnostic in Hd; rewrite Hex in Hd; discriminate].
    destruct (lineDiagnostic_match doc _ _ _ Hex) as (d' & Hd' & _ & Hm & Hs).
    rewrite Hd' in Hd. injection Hd as <-.
    destruct (matched_line_shape filePath _ line g
                (diagnosticPattern_built filePath) Hex)
      as (o & ws & init & c & ws' & body & -> & _ & Hws & Hrun & Hws' & _ & _ & ->).
    exists o, ws, init, c, ws', body.
    simpl gbody in Hm. simpl gseverity in Hs.
    rewrite SEVERITY_char in Hs. rewrite Hm, Hs.
    repeat split; try assumption; try reflexivity.
    + intros ->. reflexivity.
    + intros ->. reflexivity.
    + intros Hne. destruct (N.eqb_spec c charE); [contradiction | reflexivity].
Qed.

Lemma severity_from_last_character_witness :
  (lineFieldOk (Some (js "3")) (js " " ++ js "warn" ++ [charE]) = true
   /\ forallb isSpace (js " ") = true
   /\ forallb notSpace (js "warn" ++ [charE]) = true
   /\ forallb isSpace (js " ") = true
   /\ plainMessage (js "macro undefined") = true
   /\ noColon (firstToken (js " " ++ js "macro undefined")) = true)
  /\ exists d,
       parseLine doc5 specPath (js "/ws/pkg.spec:3: warnE: macro undefined")
       = Produced d
       /\ (charE = charE -> severity d = Error)
       /\ (charE = charW -> severity d = Warning)
       /\ (charE <> charE -> severity d = Warning)
       /\ message d = js "macro undefined".
Proof.
  split.
  - repeat split; reflexivity.
  - apply (proj1 (severity_from_last_character doc5 specPath)
             (Some (js "3")) (js " ") (js "warn") charE (js " ")
             (js "macro undefined"));
      reflexivity.
Defined.

(** ** The extension's state machine *)

Section ExtensionProperties.

Variable host : Host.

Lemma lint_skipped document s :
  lintable document = false -> lint host document s = Returned s.
Proof.
  unfold lintable, lint. intros H.
  destruct (bool_decide (languageId document = MODE_language));
    [|reflexivity].
  destruct (bool_decide (scheme (uri document) = MODE_scheme));
    [|reflexivity].
  destruct (isUntitled document); [reflexivity | discriminate].
Qed.

Lemma lint_disabled document s :
  lintable document = true -> lintEnabled s = false ->
  lint host document s = Returned (diagnosticsDelete (uri document) s).
Proof.
  unfold lintable, lintEnabled, lint. intros H Hoff.
  apply andb_true_iff in H as [H H3]. apply andb_true_iff in H as [H1 H2].
  rewrite H1, H2, Hoff. destruct (isUntitled document); [discriminate|].
  reflexivity.
Qed.

Lemma lint_enabled document s :
  lintable document = true -> lintEnabled s = true ->
  spawnable (config s) = true ->
  lint host document s
  = Returned
      (let ctx := getLintContext host (config s) document in
       let s1 := spawn (path ctx) [fsPath (uri document)] (options ctx) s in
       setRuns (runs s1 ++ [{| runUri := uri document;
                               runPattern :=
                                 Seq Bol (lits (fsPath (uri document))
                                               patternTail);
                               runArray := [] |}]) s1).
Proof.
  unfold lintable, lintEnabled, spawnable, lint. intros H Hon Hsp.
  apply andb_true_iff in H as [H H3]. apply andb_true_iff in H as [H1 H2].
  rewrite H1, H2, Hon, diagnosticPattern_built.
  destruct (isUntitled document); [discriminate|]. simpl.
  destruct (spawnThrows (nullish (cfgRpmlintPath (config s)) (js "rpmlint")));
    [discriminate | reflexivity].
Qed.

Lemma lint_throws document s :
  lintable document = true -> lintEnabled s = true ->
  spawnable (config s) = false ->
  lint host document s = Threw s.
Proof.
  unfold lintable, lintEnabled, spawnable, lint. intros H Hon Hsp.
  apply andb_true_iff in H as [H H3]. apply andb_true_iff in H as [H1 H2].
  rewrite H1, H2, Hon.
  destruct (isUntitled document); [discriminate|]. simpl.
  destruct (spawnThrows (nullish (cfgRpmlintPath (config s)) (js "rpmlint")));
    [reflexivity | discriminate].
Qed.

(** The four ways [lint] can go. *)
Lemma lint_cases document s :
  lint host document s = Returned s
  \/ lint host document s = Returned (diagnosticsDelete (uri document) s)
  \/ lint host document s = Threw s
  \/ (lintable document = true /\ lintEnabled s = true
      /\ spawnable (config s) = true
      /\ lint host document s
         = Returned
             (setRuns (runs s ++ [{| runUri := uri document;
                                    runPattern :=
                                      Seq Bol (lits (fsPath (uri document))
                                                    patternTail);
                                    runArray := [] |}])
                (spawn (path (getLintContext host (config s) document))
                       [fsPath (uri document)]
                       (options (getLintContext host (config s) document))
                       s))).
Proof.
  destruct (lintable document) eqn:Hl;
    [|left; apply lint_skipped; assumption].
  destruct (lintEnabled s) eqn:He;
    [|right; left; apply lint_disabled; assumption].
  destruct (spawnable (config s)) eqn:Hs;
    [|right; right; left; apply lint_throws; assumption].
  right; right; right. repeat split.
  rewrite lint_enabled by assumption. reflexivity.
Qed.

Lemma sameSession_refl s : sameSession s s.
Proof. repeat split. Qed.

Lemma sameSession_trans s s1 s2 :
  sameSession s s1 -> sameSession s1 s2 -> sameSession s s2.
Proof.
  intros (A1 & A2 & A3 & A4 & A5 & A6 & A7) (B1 & B2 & B3 & B4 & B5 & B6 & B7).
  repeat split; congruence.
Qed.

Lemma lint_frame document s : sameSession s (stateOf (lint host document s)).
Proof.
  destruct (lint_cases document s) as [H|[H|[H|(_ & _ & _ & H)]]];
    rewrite H; repeat split.
Qed.

Lemma runHandler_frame h document s :
  sameSession s (stateOf (runHandler host h document s)).
Proof.
  destruct h; simpl; [apply lint_frame | repeat split].
Qed.

Lemma lint_all_frame docs s :
  sameSession s (stateOf (lintAll host docs s)).
Proof.
  revert s. induction docs as [|doc docs IH]; intros s; simpl.
  - apply sameSession_refl.
  - pose proof (lint_frame doc s) as Hf.
    destruct (lint host doc s) as [s'|s']; simpl in *; [|exact Hf].
    eapply sameSession_trans; [exact Hf | apply IH].
Qed.

Lemma fire_frame e document s : sameSession s (fire host e document s).
Proof.
  unfold fire. generalize (listeners s) as ls. intros ls. revert s.
  induction ls as [|[e' h] ls IH]; intros s; simpl.
  - apply sameSession_refl.
  - destruct (eventKindEq e' e); [|apply IH].
    eapply sameSession_trans; [apply runHandler_frame | apply IH].
Qed.

(** *** Linting switched off *)

Lemma delete_fmap_twice (k : UriKey)
    (o : option (gmap UriKey (list Diagnostic))) :
  delete k <$> (delete k <$> o) = delete k <$> o.
Proof. destruct o; simpl; [rewrite delete_delete_eq|]; reflexivity. Qed.

Lemma quietOn_refl k s : quietOn k s s.
Proof. repeat split; auto. Qed.

Lemma quietOn_trans k s s1 s2 :
  quietOn k s s1 -> quietOn k s1 s2 -> quietOn k s s2.
Proof.
  intros (Hc1 & Hs1 & Hr1 & Hd1) (Hc2 & Hs2 & Hr2 & Hd2).
  repeat split; try congruence.
  destruct Hd1 as [Hd1|Hd1], Hd2 as [Hd2|Hd2]; rewrite Hd2, Hd1;
    rewrite ?delete_fmap_twice; auto.
Qed.

Lemma runHandler_quiet h document s :
  lintEnabled s = false ->
  quietOn (uriKey (uri document)) s (stateOf (runHandler host h document s)).
Proof.
  intros Hoff. destruct h; simpl.
  - destruct (lintable document) eqn:Hl.
    + rewrite lint_disabled by assumption.
      repeat split; auto.
    + rewrite lint_skipped by assumption. apply quietOn_refl.
  - repeat split; auto.
Qed.

Lemma dispatch_quiet e document ls s :
  lintEnabled s = false ->
  quietOn (uriKey (uri document)) s (dispatch host e document ls s).
Proof.
  revert s. induction ls as [|[e' h] ls IH]; intros s Hoff; simpl.
  - apply quietOn_refl.
  - destruct (eventKindEq e' e); [|apply IH; exact Hoff].
    pose proof (runHandler_quiet h document s Hoff) as Hq.
    eapply quietOn_trans; [exact Hq|].
    apply IH. unfold lintEnabled in *.
    destruct Hq as (Hc & _). rewrite Hc. exact Hoff.
Qed.

Lemma eventKindEq_refl e : eventKindEq e e = true.
Proof. destruct e; reflexivity. Qed.

Lemma dispatch_clears e document ls s :
  lintEnabled s = false ->
  lintable document = true ->
  List.In (e, LintDocument) ls ->
  diagnostics (dispatch host e document ls s)
  = delete (uriKey (uri document)) <$> diagnostics s.
Proof.
  revert s. induction ls as [|[e' h] ls IH]; intros s Hoff Hl Hin;
    [destruct Hin|].
  simpl. destruct Hin as [[= -> ->]|Hin].
  - rewrite eventKindEq_refl. simpl runHandler.
    rewrite lint_disabled by assumption. simpl stateOf.
    set (s1 := diagnosticsDelete (uri document) s).
    assert (Hoff1 : lintEnabled s1 = false) by exact Hoff.
    destruct (dispatch_quiet e document ls s1 Hoff1) as (_ & _ & _ & Hd).
    destruct Hd as [Hd|Hd]; rewrite Hd; simpl;
      rewrite ?delete_fmap_twice; reflexivity.
  - destruct (eventKindEq e' e).
    + pose proof (runHandler_quiet h document s Hoff) as (Hc & _ & _ & Hd).
      rewrite IH; [| unfold lintEnabled in *; rewrite Hc; exact Hoff
                   | exact Hl | exact Hin].
      destruct Hd as [Hd|Hd]; rewrite Hd;
        rewrite ?delete_fmap_twice; reflexivity.
    + apply IH; assumption.
Qed.

Lemma step_trigger_quiet e document s :
  lintEnabled s = false ->
  quietOn (uriKey (uri document)) s (step host s (trigger e document)).
Proof.
  intros Hoff.
  destruct e; simpl; unfold fire;
    try (apply (dispatch_quiet _ document (listeners s) s Hoff)).
  - set (s0 := setTextDocuments _ s).
    apply (quietOn_trans _ s s0); [repeat split; auto|].
    apply (dispatch_quiet DidOpen document (listeners s0) s0 Hoff).
  - set (s0 := setTextDocuments _ s).
    apply (quietOn_trans _ s s0); [repeat split; auto|].
    apply (dispatch_quiet DidClose document (listeners s0) s0 Hoff).
Qed.

(** C5, as amended.  While the lint flag is off, an open or save event for
    a document spawns no process and starts no run; it leaves the
    diagnostic set of every other document as it was; and when the
    document is a spec file on disk and the lint listener is registered,
    the document's own diagnostic set is removed. *)
Theorem lint_off_clears_triggering_document e document s :
  lintEnabled s = false ->
  let s' := step host s (trigger e document) in
  spawned s' = spawned s
  /\ runs s' = runs s
  /\ (forall u, uriKey u <> uriKey (uri document) ->
        diagnosticsOf s' u = diagnosticsOf s u)
  /\ (lintable document = true ->
      List.In (e, LintDocument) (listeners s) ->
      diagnosticsOf s' (uri document) = None).
Proof.
  intros Hoff s'.
  destruct (step_trigger_quiet e document s Hoff) as (_ & Hs & Hr & Hd).
  fold s' in Hs, Hr, Hd. split; [exact Hs|]. split; [exact Hr|]. split.
  - intros u Hu. unfold diagnosticsOf.
    destruct Hd as [Hd|Hd]; rewrite Hd; [reflexivity|].
    destruct (diagnostics s) as [m|]; simpl; [|reflexivity].
    apply lookup_delete_ne. congruence.
  - intros Hl Hin. unfold diagnosticsOf.
    assert (Hclear : diagnostics s'
                     = delete (uriKey (uri document)) <$> diagnostics s).
    { subst s'. destruct e; simpl; unfold fire.
      - exact (dispatch_clears DidOpen document _
                 (setTextDocuments _ s) Hoff Hl Hin).
      - exact (dispatch_clears DidSave document _ s Hoff Hl Hin).
      - exact (dispatch_clears DidClose document _
                 (setTextDocuments _ s) Hoff Hl Hin). }
    rewrite Hclear. destruct (diagnostics s) as [m|]; simpl; [|reflexivity].
    apply lookup_delete_eq.
Qed.

(** *** One lint run *)

Lemma onLine_appends doc pattern line array :
  onLine doc pattern line array
  = array ++ produced (lineDiagnostic doc pattern line).
Proof.
  unfold onLine. destruct (lineDiagnostic doc pattern line); simpl;
    rewrite ?app_nil_r; reflexivity.
Qed.

(** While lines arrive, only the run's own array changes. *)
Lemma lines_only_fill_array i ls :
  forall s r,
    runs s !! i = Some r ->
    let s' := run host s (lineEvents i ls) in
    diagnostics s' = diagnostics s
    /\ warnings s' = warnings s
    /\ spawned s' = spawned s
    /\ runs s' !! i
       = Some {| runUri := runUri r; runPattern := runPattern r;
                 runArray := runArray r ++ collect (runPattern r) ls |}.
Proof.
  induction ls as [|[doc line] ls IH]; intros s r Hr; cbv zeta.
  - unfold collect. simpl. rewrite app_nil_r. destruct r; auto.
  - change (run host s (lineEvents i ((doc, line) :: ls)))
      with (run host (onLintLine i doc line s) (lineEvents i ls)).
    assert (Hstep : onLintLine i doc line s
                    = setRunArray i (onLine doc (runPattern r) line
                                            (runArray r)) s)
      by (unfold onLintLine; rewrite Hr; reflexivity).
    rewrite Hstep. set (s1 := setRunArray i _ s).
    assert (Hr1 : runs s1 !! i
                  = Some {| runUri := runUri r; runPattern := runPattern r;
                            runArray := onLine doc (runPattern r) line
                                               (runArray r) |}).
    { subst s1. simpl. rewrite list_lookup_alter_eq, Hr. reflexivity. }
    destruct (IH s1 _ Hr1) as (Hd & Hw & Hs & Hruns).
    rewrite Hd, Hw, Hs, Hruns. simpl.
    rewrite onLine_appends, <- app_assoc. auto.
Qed.

Lemma lint_starts_run document s :
  lintable document = true -> lintEnabled s = true ->
  spawnable (config s) = true ->
  let s0 := stateOf (lint host document s) in
  runs s0 !! length (runs s)
  = Some {| runUri := uri document;
            runPattern := Seq Bol (lits (fsPath (uri document)) patternTail);
            runArray := [] |}
  /\ diagnostics s0 = diagnostics s
  /\ warnings s0 = warnings s
  /\ length (spawned s0) = S (length (spawned s)).
Proof.
  intros Hl Hon Hsp. rewrite lint_enabled by assumption. simpl.
  split; [|split; [reflexivity|split; [reflexivity|]]].
  - rewrite lookup_app_r by lia. rewrite Nat.sub_diag. reflexivity.
  - rewrite length_app. simpl. lia.
Qed.

(** C7.  After [lint] has started a run (the linter path of the settings is
    one [cp.spawn] takes), the lines that arrive change no diagnostic set,
    whatever their number; when the stream closes the document's set becomes
    the diagnostics of the matching lines in the order the lines arrived,
    none dropped as a duplicate, none moved. *)
Theorem diagnostics_published_on_close document s m ls :
  lintable document = true ->
  lintEnabled s = true ->
  spawnable (config s) = true ->
  diagnostics s = Some m ->
  let i := length (runs s) in
  let s0 := stateOf (lint host document s) in
  let pattern := Seq Bol (lits (fsPath (uri document)) patternTail) in
  (forall k, diagnostics (run host s0 (firstn k (lineEvents i ls))) = Some m)
  /\ diagnostics (run host s0 (lineEvents i ls ++ [LintClose i]))
     = Some (<[uriKey (uri document) := collect pattern ls]> m).
Proof.
  intros Hl Hon Hsp Hm i s0 pattern.
  destruct (lint_starts_run document s Hl Hon Hsp) as (Hr & Hd & _).
  fold s0 i in Hr, Hd. split.
  - intros k. unfold lineEvents. rewrite firstn_map.
    destruct (lines_only_fill_array i (firstn k ls) s0 _ Hr) as (Hd' & _).
    unfold lineEvents in Hd'. rewrite Hd', Hd. exact Hm.
  - destruct (lines_only_fill_array i ls s0 _ Hr) as (Hd' & _ & _ & Hr').
    unfold run in *. rewrite fold_left_app. simpl.
    unfold onLintClose. rewrite Hr'. simpl.
    rewrite Hd', Hd, Hm. reflexivity.
Qed.


Lemma onLintClose_at i r s :
  runs s !! i = Some r ->
  onLintClose i s = diagnosticsSet (runUri r) (runArray r) s.
Proof. intros H. unfold onLintClose. rewrite H. reflexivity. Qed.



(** *** Activation and the probes *)

Lemma activate_state s :
  let s' := activate host s in
  sanityProbe s' = Some (closureAt host s)
  /\ lspProbe s'
     = (if nullish (cfgLsp (config s)) true then Some (closureAt host s)
        else lspProbe s)
  /\ lspClient s' = lspClient s
  /\ listeners s' = listeners s
  /\ subscriptions s' = subscriptions s
  /\ warnings s' = warnings s.
Proof.
  unfold activate. destruct (nullish (cfgLsp (config s)) true); simpl;
    repeat split.
Qed.

Lemma lintAll_keeps (P : ExtState -> Prop) :
  (forall doc s, P s -> P (stateOf (lint host doc s))) ->
  forall docs s, P s -> P (stateOf (lintAll host docs s)).
Proof.
  intros Hstep. induction docs as [|doc docs IH]; intros s Hs; [exact Hs|].
  simpl. pose proof (Hstep doc s Hs) as H.
  destruct (lint host doc s) as [s'|s']; simpl in H |- *; [apply IH, H | exact H].
Qed.

(** With a linter path that [cp.spawn] takes, the loop over the open
    documents runs to its end. *)
Lemma lintAll_returns docs :
  forall s, spawnable (config s) = true ->
            lintAll host docs s = Returned (stateOf (lintAll host docs s)).
Proof.
  induction docs as [|doc docs IH]; intros s Hs; [reflexivity|].
  simpl.
  destruct (lint_cases doc s) as [H|[H|[H|(_ & _ & _ & H)]]]; rewrite H.
  - apply IH, Hs.
  - apply IH, Hs.
  - exfalso. destruct (lintable doc) eqn:Hl;
      [|rewrite lint_skipped in H by assumption; discriminate H].
    destruct (lintEnabled s) eqn:He;
      [|rewrite lint_disabled in H by assumption; discriminate H].
    rewrite lint_enabled in H by assumption. discriminate H.
  - apply IH, Hs.
Qed.

(** Once the gate is passed the collection exists and the open and save
    listeners are registered, whatever happens next in the callback. *)
Lemma sanityThen_opens c code s :
  truthyExit code = false -> cLint c = true ->
  let s' := sanityThen host c code s in
  (listeners s' = listeners s ++ halfRegistered
   \/ listeners s' = listeners s ++ registered)
  /\ warnings s' = warnings s
  /\ lspClient s' = lspClient s
  /\ lspProbe s' = lspProbe s
  /\ sanityProbe s' = sanityProbe s.
Proof.
  intros Hcode Hlint. unfold sanityThen. rewrite Hcode, Hlint. simpl.
  match goal with
  | |- context [lintAll host ?docs ?s3] =>
      destruct (lint_all_frame docs s3) as (_ & A2 & A3 & A4 & A5 & A6 & A7);
      destruct (lintAll host docs s3) as [s4|s4]
  end; simpl in *; rewrite ?A2, ?A3, ?A4, ?A5, ?A7; simpl.
  - split; [right; rewrite <- !app_assoc; reflexivity|]. repeat split.
  - split; [left; rewrite <- !app_assoc; reflexivity|]. repeat split.
Qed.

Lemma sanityThen_registers c code s :
  truthyExit code = false -> cLint c = true ->
  spawnable (config s) = true ->
  let s' := sanityThen host c code s in
  listeners s' = listeners s ++ registered
  /\ subscriptions s' = subscriptions s ++ [DiagnosticsDisposable]
  /\ warnings s' = warnings s
  /\ lspClient s' = lspClient s
  /\ lspProbe s' = lspProbe s.
Proof.
  intros Hcode Hlint Hsp. unfold sanityThen. rewrite Hcode, Hlint. simpl.
  match goal with
  | |- context [lintAll host ?docs ?s3] =>
      destruct (lint_all_frame docs s3) as (_ & A2 & A3 & _ & A5 & A6 & A7);
      rewrite (lintAll_returns docs s3 Hsp)
  end.
  simpl. rewrite A2, A3, A5, A6, A7. simpl.
  rewrite <- !app_assoc. repeat split.
Qed.

Lemma sanityThen_skips c code s :
  truthyExit code = true \/ cLint c = false ->
  sanityThen host c code s = s.
Proof.
  intros H. unfold sanityThen.
  destruct H as [-> | ->]; [reflexivity|].
  rewrite andb_false_r. reflexivity.
Qed.

Lemma sanityThen_lsp c code s :
  lspClient (sanityThen host c code s) = lspClient s
  /\ lspProbe (sanityThen host c code s) = lspProbe s.
Proof.
  destruct (truthyExit code) eqn:Hc;
    [rewrite sanityThen_skips by auto; auto|].
  destruct (cLint c) eqn:Hl;
    [|rewrite sanityThen_skips by auto; auto].
  destruct (sanityThen_opens c code s Hc Hl) as (_ & _ & A & B & _).
  auto.
Qed.

(** C1 at its failing input.  With the lint flag on, when the sanity
    probe cannot be spawned the warning is shown and then, the promise
    having resolved to null, the gate is passed: the open and save listeners
    are registered, and with a linter path that [cp.spawn] takes (the probe
    was launched with it) the close listener and the disposable as well. *)
Theorem sanity_spawn_error_still_registers cfg docs error :
  nullish (cfgLint cfg) true = true ->
  let s := run host (initialState cfg docs) [Activate; SanityError error] in
  warnings s = [js "rpmlint cannot be launched: " ++ error]
  /\ List.In (DidOpen, LintDocument) (listeners s)
  /\ List.In (DidSave, LintDocument) (listeners s)
  /\ (spawnable cfg = true ->
      listeners s = registered
      /\ subscriptions s = [DiagnosticsDisposable]).
Proof.
  intros Hlint. cbv zeta. unfold run. cbn [fold_left].
  set (s0 := initialState cfg docs).
  destruct (activate_state s0) as (Hp & _ & _ & Hl & Hsub & Hw).
  assert (Hc : config (activate host s0) = cfg)
    by (unfold s0, activate; simpl;
        destruct (nullish (cfgLsp cfg) true); reflexivity).
  cbn [step]. rewrite Hp.
  match goal with
  | |- context [sanityThen host ?c None ?s1] =>
      destruct (sanityThen_opens c None s1 eq_refl Hlint)
        as (A1 & A3 & _);
      pose proof (sanityThen_registers c None s1 eq_refl Hlint) as Hreg;
      assert (Hl1 : listeners s1 = []) by exact Hl;
      assert (Hs1 : subscriptions s1 = []) by exact Hsub;
      assert (Hc1 : config s1 = cfg) by exact Hc;
      assert (Hw1 : warnings s1 = [js "rpmlint cannot be launched: " ++ error])
        by (change (warnings s1)
              with (warnings (activate host s0)
                    ++ [js "rpmlint cannot be launched: " ++ error]);
            rewrite Hw; reflexivity)
  end.
  rewrite Hl1 in A1. rewrite Hc1, Hl1, Hs1 in Hreg.
  rewrite A3, Hw1. split; [reflexivity|].
  split; [destruct A1 as [-> | ->]; simpl; auto|].
  split; [destruct A1 as [-> | ->]; simpl; auto|].
  intros Hsp. destruct (Hreg Hsp) as (B1 & B2 & _).
  rewrite B1, B2. auto.
Qed.

Lemma lspThen_starts c s :
  lspThen c true s
  = setSubscriptions (subscriptions s ++ [ClientDisposable])
      (setLspClient
         (Some {| clientId := js "rpm-spec-lsp";
                  clientName := js "RPM Spec Language Server";
                  serverCommand := cLspPath c;
                  serverArgs := [js "--stdio"];
                  serverCwd := Some (cwd (options (cSanityContext c)));
                  serverEnv := env (options (cSanityContext c));
                  documentSelector := [(MODE_language, MODE_scheme)];
                  startCalls := 1;
                  stopCalls := 0 |}) s).
Proof. reflexivity. Qed.

(** C8.  While the language-server probe is pending: whatever the exit
    code of [<lspPath> --help], zero or not or none, the client is created
    and started, and no warning is shown; on a spawn error nothing happens
    but the promise settling: no client, no warning, no listener.  The
    linter probe differs: a null or zero exit code passes the gate, so the
    open and save listeners are registered, and all three when the linter
    path is one [cp.spawn] takes, so that linting the open documents cannot
    throw; any other exit code leaves everything as it was. *)
Theorem lsp_probe_any_exit_is_available s c :
  lspProbe s = Some c ->
  (forall code,
      exists client,
        lspClient (step host s (LspExit code)) = Some client
        /\ serverCommand client = cLspPath c
        /\ startCalls client = 1%nat
        /\ warnings (step host s (LspExit code)) = warnings s)
  /\ (forall error, step host s (LspError error) = setLspProbe None s)
  /\ (forall cs code,
        sanityProbe s = Some cs -> cLint cs = true ->
        (code = None \/ code = Some 0 ->
         (listeners (step host s (SanityExit code))
          = listeners s ++ halfRegistered
          \/ listeners (step host s (SanityExit code))
             = listeners s ++ registered)
         /\ (spawnable (config s) = true ->
             listeners (step host s (SanityExit code))
             = listeners s ++ registered))
        /\ ((exists n, code = Some n /\ n <> 0) ->
            step host s (SanityExit code) = setSanityProbe None s)).
Proof.
  intros Hp. split; [|split].
  - intros code. cbn [step]. rewrite Hp, lspThen_starts.
    eexists. split; [reflexivity|]. repeat split.
  - intros error. cbn [step]. rewrite Hp. reflexivity.
  - intros cs code Hs Hl. cbn [step]. rewrite Hs. split.
    + intros Hcode.
      assert (Ht : truthyExit code = false)
        by (destruct Hcode as [-> | ->]; reflexivity).
      split.
      * destruct (sanityThen_opens cs code (setSanityProbe None s) Ht Hl)
          as (A & _). exact A.
      * intros Hsp.
        destruct (sanityThen_registers cs code (setSanityProbe None s) Ht Hl
                    Hsp) as (A & _). exact A.
    + intros (n & -> & Hn). apply sanityThen_skips. left. simpl.
      destruct (Z.eqb_spec n 0); [contradiction | reflexivity].
Qed.

(** *** The client session over the session's events *)

Lemma step_lsp_frame s e :
  notLspEvent e = true ->
  lspClient (step host s e) = lspClient s
  /\ lspProbe (step host s e) = lspProbe s.
Proof.
  intros He. destruct e; try discriminate He; cbn [step].
  - destruct (sanityProbe s) as [c|]; [|auto].
    destruct (sanityThen_lsp c code (setSanityProbe None s)) as [A B].
    rewrite A, B. auto.
  - destruct (sanityProbe s) as [c|]; [|auto].
    match goal with
    | |- context [sanityThen host c None ?s0] =>
        destruct (sanityThen_lsp c None s0) as [A B]
    end.
    rewrite A, B. auto.
  - destruct (fire_frame DidOpen document
                (setTextDocuments (textDocuments s ++ [document]) s))
      as (_ & A & B & _). auto.
  - destruct (fire_frame DidSave document s) as (_ & A & B & _). auto.
  - match goal with
    | |- context [fire host DidClose document ?s0] =>
        destruct (fire_frame DidClose document s0) as (_ & A & B & _)
    end. auto.
  - auto.
  - unfold onLintLine. destruct (runs s !! _); auto.
  - unfold onLintClose. destruct (runs s !! _); auto.
  - unfold onLintError. destruct (runs s !! _); auto.
Qed.

Lemma run_lsp_frame es s :
  forallb notLspEvent es = true ->
  lspClient (run host s es) = lspClient s
  /\ lspProbe (run host s es) = lspProbe s.
Proof.
  revert s. induction es as [|e es IH]; intros s Hes; [auto|].
  simpl in Hes. apply andb_true_iff in Hes as [He Hes].
  destruct (step_lsp_frame s e He) as [A B].
  destruct (IH (step host s e) Hes) as [C D].
  unfold run in *. simpl. rewrite C, D. auto.
Qed.

(** Once the probe has settled, nothing before deactivation touches the
    client. *)
Lemma step_settled s e :
  lspProbe s = None -> midSession e = true ->
  lspClient (step host s e) = lspClient s
  /\ lspProbe (step host s e) = None.
Proof.
  intros Hp He. destruct (notLspEvent e) eqn:Hn.
  - destruct (step_lsp_frame s e Hn) as [A B]. rewrite A, B. auto.
  - destruct e; try discriminate; cbn [step]; rewrite Hp; auto.
Qed.

Lemma run_settled es s :
  lspProbe s = None -> forallb midSession es = true ->
  lspClient (run host s es) = lspClient s
  /\ lspProbe (run host s es) = None.
Proof.
  revert s. induction es as [|e es IH]; intros s Hp Hes; [auto|].
  simpl in Hes. apply andb_true_iff in Hes as [He Hes].
  destruct (step_settled s e Hp He) as [A B].
  destruct (IH (step host s e) B Hes) as [C D].
  unfold run in *. simpl. rewrite C, D. auto.
Qed.

Lemma run_app s es1 es2 :
  run host s (es1 ++ es2) = run host (run host s es1) es2.
Proof. unfold run. apply fold_left_app. Qed.

(** C9.  With the language server enabled, once its probe process exits
    (with any code) a client is created with the configured server path as
    command and [--stdio] as its only argument, and started once; whatever
    happens between then and deactivation, deactivation calls its [stop]
    once. *)
Theorem client_started_then_stopped_once cfg docs before code after :
  nullish (cfgLsp cfg) true = true ->
  forallb notLspEvent before = true ->
  forallb midSession after = true ->
  let s1 := run host (initialState cfg docs)
                (Activate :: before ++ [LspExit code] ++ after) in
  exists client,
    lspClient s1 = Some client
    /\ serverCommand client = nullish (cfgLspPath cfg) (js "rpm_lsp_server")
    /\ serverArgs client = [js "--stdio"]
    /\ startCalls client = 1%nat
    /\ stopCalls client = 0%nat
    /\ exists client',
        lspClient (step host s1 Deactivate) = Some client'
        /\ serverCommand client' = serverCommand client
        /\ startCalls client' = 1%nat
        /\ stopCalls client' = 1%nat.
Proof.
  intros Hlsp Hbefore Hafter. cbv zeta.
  change (Activate :: before ++ [LspExit code] ++ after)
    with ([Activate] ++ before ++ [LspExit code] ++ after).
  rewrite !run_app.
  set (s0 := initialState cfg docs).
  change (run host s0 [Activate]) with (activate host s0).
  destruct (activate_state s0) as (_ & Hp & Hc & _).
  change (config s0) with cfg in Hp. rewrite Hlsp in Hp.
  destruct (run_lsp_frame before (activate host s0) Hbefore) as [Bc Bp].
  rewrite Hp in Bp. rewrite Hc in Bc.
  set (sb := run host (activate host s0) before) in *.
  change (run host sb [LspExit code]) with (step host sb (LspExit code)).
  assert (Hx : step host sb (LspExit code)
               = lspThen (closureAt host s0) true (setLspProbe None sb))
    by (cbn [step]; rewrite Bp; reflexivity).
  rewrite Hx, lspThen_starts.
  match goal with
  | |- context [run host ?sx after] =>
      destruct (run_settled after sx eq_refl Hafter) as [Ac _];
      set (s1 := run host sx after) in *
  end.
  simpl in Ac.
  eexists. split; [exact Ac|].
  repeat split.
  unfold deactivate. cbn [step]. unfold deactivate. rewrite Ac.
  eexists. split; [reflexivity|]. repeat split.
Qed.
End ExtensionProperties.

(** ** The claims on the sample session *)

Lemma sanity_spawn_error_still_registers_witness :
  nullish (cfgLint defaults) true = true
  /\ let s := run sampleHost (initialState defaults [specA])
                  [Activate; SanityError (js "Error: spawn rpmlint ENOENT")] in
     warnings s
     = [js "rpmlint cannot be launched: " ++ js "Error: spawn rpmlint ENOENT"]
     /\ List.In (DidOpen, LintDocument) (listeners s)
     /\ List.In (DidSave, LintDocument) (listeners s)
     /\ (spawnable defaults = true ->
         listeners s = registered
         /\ subscriptions s = [DiagnosticsDisposable]).
Proof.
  split; [reflexivity|].
  apply (sanity_spawn_error_still_registers sampleHost defaults [specA]
           (js "Error: spawn rpmlint ENOENT")).
  reflexivity.
Defined.

Lemma lint_off_clears_triggering_document_witness :
  lintEnabled sOff = false
  /\ let s' := step sampleHost sOff (trigger DidSave specA) in
     spawned s' = spawned sOff
     /\ runs s' = runs sOff
     /\ (forall u, uriKey u <> uriKey (uri specA) ->
           diagnosticsOf s' u = diagnosticsOf sOff u)
     /\ (lintable specA = true ->
         List.In (DidSave, LintDocument) (listeners sOff) ->
         diagnosticsOf s' (uri specA) = None).
Proof.
  split; [vm_compute; reflexivity|].
  apply (lint_off_clears_triggering_document sampleHost DidSave specA sOff).
  vm_compute; reflexivity.
Defined.

(** C5 as stated fails: with linting switched off and two open documents
    that both have diagnostics, the save of one of them leaves the
    diagnostic set of the other in place. *)
Lemma lint_off_other_document_counterexample :
  lintEnabled sOff = false
  /\ textDocuments sOff = [specA; specB]
  /\ diagnosticsOf sOff (uri specA) = Some [diagA]
  /\ diagnosticsOf sOff (uri specB) = Some [diagB]
  /\ diagnosticsOf (step sampleHost sOff (Saved specA)) (uri specA) = None
  /\ diagnosticsOf (step sampleHost sOff (Saved specA)) (uri specB)
     = Some [diagB].
Proof. repeat split; vm_compute; reflexivity. Qed.



Lemma diagnostics_published_on_close_witness :
  (lintable specA = true
   /\ lintEnabled sReady = true
   /\ spawnable (config sReady) = true
   /\ diagnostics sReady = Some ∅)
  /\ let i := length (runs sReady) in
     let s0 := stateOf (lint sampleHost specA sReady) in
     let pattern := Seq Bol (lits (fsPath (uri specA)) patternTail) in
     (forall k,
         diagnostics (run sampleHost s0 (firstn k (lineEvents i sampleLines)))
         = Some ∅)
     /\ diagnostics (run sampleHost s0 (lineEvents i sampleLines ++ [LintClose i]))
        = Some (<[uriKey (uri specA) := collect pattern sampleLines]> ∅).
Proof.
  split; [repeat split; vm_compute; reflexivity|].
  apply (diagnostics_published_on_close sampleHost specA sReady ∅ sampleLines).
  - vm_compute; reflexivity.
  - vm_compute; reflexivity.
  - vm_compute; reflexivity.
  - vm_compute; reflexivity.
Defined.

Lemma lsp_probe_any_exit_is_available_witness :
  let s := activate sampleHost (initialState defaults []) in
  let c := closureAt sampleHost (initialState defaults []) in
  lspProbe s = Some c
  /\ ((forall code,
          exists client,
            lspClient (step sampleHost s (LspExit code)) = Some client
            /\ serverCommand client = cLspPath c
            /\ startCalls client = 1%nat
            /\ warnings (step sampleHost s (LspExit code)) = warnings s)
      /\ (forall error, step sampleHost s (LspError error) = setLspProbe None s)
      /\ (forall cs code,
            sanityProbe s = Some cs -> cLint cs = true ->
            (code = None \/ code = Some 0 ->
             (listeners (step sampleHost s (SanityExit code))
              = listeners s ++ halfRegistered
              \/ listeners (step sampleHost s (SanityExit code))
                 = listeners s ++ registered)
             /\ (spawnable (config s) = true ->
                 listeners (step sampleHost s (SanityExit code))
                 = listeners s ++ registered))
            /\ ((exists n, code = Some n /\ n <> 0) ->
                step sampleHost s (SanityExit code) = setSanityProbe None s))).
Proof.
  intros s c. split; [reflexivity|].
  apply (lsp_probe_any_exit_is_available sampleHost s c).
  reflexivity.
Defined.

Lemma client_started_then_stopped_once_witness :
  (nullish (cfgLsp defaults) true = true
   /\ forallb notLspEvent [SanityExit (Some 0); Opened specA] = true
   /\ forallb midSession [Saved specA; LspExit None] = true)
  /\ let s1 := run sampleHost (initialState defaults [])
                   (Activate :: [SanityExit (Some 0); Opened specA]
                             ++ [LspExit (Some 1)]
                             ++ [Saved specA; LspExit None]) in
     exists client,
       lspClient s1 = Some client
       /\ serverCommand client
          = nullish (cfgLspPath defaults) (js "rpm_lsp_server")
       /\ serverArgs client = [js "--stdio"]
       /\ startCalls client = 1%nat
       /\ stopCalls client = 0%nat
       /\ exists client',
           lspClient (step sampleHost s1 Deactivate) = Some client'
           /\ serverCommand client' = serverCommand client
           /\ startCalls client' = 1%nat
           /\ stopCalls client' = 1%nat.
Proof.
  split; [repeat split; reflexivity|].
  apply (client_started_then_stopped_once sampleHost defaults []
           [SanityExit (Some 0); Opened specA] (Some 1)
           [Saved specA; LspExit None]); reflexivity.
Defined.

(** * More of the code *)

(** ** The pattern and the line handler *)

(** X1.  Escaping a file path and reading the result back as pattern text
    gives the path's own characters, each as a literal: the constructor never
    rejects the pattern, whatever the path. *)
Theorem escaped_path_reads_back filePath :
  parseChars false (escapeRegExp filePath) = Some filePath
  /\ diagnosticPattern filePath = Some (Seq Bol (lits filePath patternTail))
  /\ (length filePath <= length (escapeRegExp filePath)
                       <= 2 * length filePath)%nat.
Proof.
  split; [apply parseChars_escapeRegExp|].
  split; [apply diagnosticPattern_built|].
  induction filePath as [|c p IH]; simpl; [lia|].
  destruct (isSyntaxChar c); simpl; lia.
Qed.

(** X2.  The line handler never throws: a line either does not match, and
    nothing is pushed, or yields a diagnostic whose range is the whole of an
    existing line of the document as it is when the line arrives. *)
Theorem line_handler_never_throws doc filePath line :
  (parseLine doc filePath line = NoMatch
   /\ exec (Seq Bol (lits filePath patternTail)) line = None)
  \/ (exists d,
        parseLine doc filePath line = Produced d
        /\ lineAt doc (lineIndex d) = Some (range d)
        /\ 0 <= lineIndex d < lineCount doc).
Proof.
  rewrite parseLine_pattern. unfold lineDiagnostic.
  destruct (exec (Seq Bol (lits filePath patternTail)) line) as [g|];
    [right | left; auto].
  destruct (lineAt_safe doc (lineNumberOf g)) as (r & Hr & Hp).
  rewrite Hr. eexists. split; [reflexivity|].
  unfold lineIndex. simpl. rewrite Hp. split; [exact Hr|].
  pose proof (lineCount_pos doc).
  pose proof (safeLineNumber_range (lineNumberOf g) (lineCount doc)). lia.
Qed.

(** X3.  The two fallbacks of the handler are never taken: a match always
    captures the severity and the body.  The message of a diagnostic is a
    non-empty end of the line without a line terminator, and its severity is
    Error or Warning, never Information or Hint. *)
Theorem diagnostic_message_is_line_suffix doc filePath line d :
  parseLine doc filePath line = Produced d ->
  (exists g, exec (Seq Bol (lits filePath patternTail)) line = Some g
             /\ is_Some (gseverity g) /\ gbody g = Some (message d))
  /\ message d <> []
  /\ forallb isDot (message d) = true
  /\ (exists front, line = front ++ message d)
  /\ (severity d = Error \/ severity d = Warning).
Proof.
  intros Hd. rewrite parseLine_pattern in Hd.
  destruct (exec (Seq Bol (lits filePath patternTail)) line) as [g|] eqn:Hex;
    [|unfold lineDiagnostic in Hd; rewrite Hex in Hd; discriminate].
  destruct (lineDiagnostic_match doc _ _ _ Hex) as (d' & Hd' & _ & Hm & Hs).
  rewrite Hd' in Hd. injection Hd as <-.
  destruct (matched_line_shape filePath _ line g
              (diagnosticPattern_built filePath) Hex)
    as (o & ws & init & c & ws' & body & -> & _ & _ & _ & _ & Hb & Hdot & ->).
  simpl gbody in Hm. simpl gseverity in Hs. rewrite SEVERITY_char in Hs.
  simpl nullish in Hm. rewrite Hm.
  split; [eexists; split; [reflexivity | split; [eexists|]; reflexivity]|].
  split; [exact Hb|]. split; [exact Hdot|]. split.
  - exists (filePath ++ colon :: lineFieldText o ++ ws ++ init ++ [c]
                    ++ colon :: ws').
    rewrite <- !app_assoc. simpl. rewrite <- !app_assoc. reflexivity.
  - rewrite Hs. destruct (c =? charE)%N; auto.
Qed.

Lemma diagnostic_message_is_line_suffix_witness :
  let line := js "/ws/pkg.spec:E: macro undefined" in
  let d := {| range := wholeLine 0 9; message := js "macro undefined";
              severity := Error |} in
  parseLine doc5 specPath line = Produced d
  /\ ((exists g, exec (Seq Bol (lits specPath patternTail)) line = Some g
                 /\ is_Some (gseverity g) /\ gbody g = Some (message d))
      /\ message d <> []
      /\ forallb isDot (message d) = true
      /\ (exists front, line = front ++ message d)
      /\ (severity d = Error \/ severity d = Warning)).
Proof.
  intros line d. split; [vm_compute; reflexivity|].
  apply (diagnostic_message_is_line_suffix doc5 specPath line d).
  vm_compute; reflexivity.
Defined.

(** ** Documents and runs *)

Section SessionProperties.

Variable host : Host.

Lemma fire_registered e document s :
  listeners s = registered ->
  fire host e document s
  = match e with
    | DidOpen | DidSave => stateOf (lint host document s)
    | DidClose => diagnosticsDelete (uri document) s
    end.
Proof.
  intros Hl. unfold fire. rewrite Hl. destruct e; reflexivity.
Qed.

Lemma fire_halfRegistered e document s :
  listeners s = halfRegistered ->
  fire host e document s
  = match e with
    | DidOpen | DidSave => stateOf (lint host document s)
    | DidClose => s
    end.
Proof.
  intros Hl. unfold fire. rewrite Hl. destruct e; reflexivity.
Qed.

(** X4.  A document that is not a spec file on disk (another language,
    another scheme, or untitled) is ignored by the open and save listeners
    whatever the lint flag says: nothing is spawned and no diagnostic set is
    touched, not even removed. *)
Theorem foreign_document_ignored document s :
  listeners s = registered ->
  lintable document = false ->
  step host s (Saved document) = s
  /\ step host s (Opened document)
     = setTextDocuments (textDocuments s ++ [document]) s.
Proof.
  intros Hl Hd. cbn [step]. rewrite !fire_registered by exact Hl.
  rewrite !(lint_skipped host) by exact Hd. auto.
Qed.


(** X6.  With the listeners registered, closing a document removes its
    diagnostic set, whatever the lint flag and whatever kind of document it
    is; the sets of other documents, the runs and the spawned processes are
    left alone. *)
Theorem close_removes_diagnostics document s :
  listeners s = registered ->
  let s' := step host s (Closed document) in
  diagnosticsOf s' (uri document) = None
  /\ (forall u, uriKey u <> uriKey (uri document) ->
        diagnosticsOf s' u = diagnosticsOf s u)
  /\ spawned s' = spawned s
  /\ runs s' = runs s.
Proof.
  intros Hl s'. subst s'. cbn [step]. rewrite fire_registered by exact Hl.
  unfold diagnosticsOf. simpl.
  destruct (diagnostics s) as [m|]; simpl; repeat split; auto.
  - apply lookup_delete_eq.
  - intros u Hu. apply lookup_delete_ne. congruence.
Qed.

(** Lines change the array of their own run and nothing else. *)
Lemma lines_fill_own_run es :
  forallb isLintLine es = true ->
  forall s,
    diagnostics (run host s es) = diagnostics s
    /\ spawned (run host s es) = spawned s
    /\ forall i r,
         runs s !! i = Some r ->
         runs (run host s es) !! i
         = Some {| runUri := runUri r; runPattern := runPattern r;
                   runArray := runArray r
                               ++ collect (runPattern r) (linesOf i es) |}.
Proof.
  induction es as [|e es IH]; intros Hes s.
  - repeat split. intros i r Hr. unfold collect. simpl.
    rewrite app_nil_r. destruct r; exact Hr.
  - simpl in Hes. apply andb_true_iff in Hes as [He Hes].
    destruct e as [| | | | | | | | |k doc line| | |]; try discriminate He.
    change (run host s (LintLine k doc line :: es))
      with (run host (onLintLine k doc line s) es).
    destruct (IH Hes (onLintLine k doc line s)) as (Hd & Hs & Hruns).
    rewrite Hd, Hs.
    assert (Hframe : diagnostics (onLintLine k doc line s) = diagnostics s
                     /\ spawned (onLintLine k doc line s) = spawned s)
      by (unfold onLintLine; destruct (runs s !! k); auto).
    destruct Hframe as [-> ->]. repeat split.
    intros i r Hr. unfold linesOf. cbn [flat_map]. fold (linesOf i es).
    destruct (Nat.eqb_spec k i) as [->|Hne].
    + rewrite (Hruns i {| runUri := runUri r; runPattern := runPattern r;
                          runArray := onLine doc (runPattern r) line
                                             (runArray r) |}).
      * simpl. rewrite onLine_appends, <- app_assoc. reflexivity.
      * unfold onLintLine. rewrite Hr. simpl.
        rewrite list_lookup_alter_eq, Hr. reflexivity.
    + rewrite (Hruns i r); [reflexivity|].
      unfold onLintLine. destruct (runs s !! k); [|exact Hr].
      simpl. rewrite list_lookup_alter_ne by exact Hne. exact Hr.
Qed.

(** X7.  When two runs for the same document overlap, their lines arriving
    in any interleaving, the run whose stream closes last decides the
    document's diagnostic set, whichever was started first; the set holds the
    diagnostics of that run's own lines only. *)
Theorem last_close_wins s i j ri rj m es :
  runs s !! i = Some ri ->
  runs s !! j = Some rj ->
  runUri ri = runUri rj ->
  diagnostics s = Some m ->
  forallb isLintLine es = true ->
  diagnostics (run host s (es ++ [LintClose j; LintClose i]))
  = Some (<[uriKey (runUri ri)
            := runArray ri ++ collect (runPattern ri) (linesOf i es)]> m).
Proof.
  intros Hi Hj Huri Hm Hes.
  destruct (lines_fill_own_run es Hes s) as (Hd & _ & Hruns).
  rewrite run_app.
  set (s1 := run host s es) in *.
  change (run host s1 [LintClose j; LintClose i])
    with (onLintClose i (onLintClose j s1)).
  rewrite (onLintClose_at j _ s1 (Hruns j rj Hj)).
  rewrite (onLintClose_at i _ (diagnosticsSet _ _ s1) (Hruns i ri Hi)).
  simpl. rewrite Hd, Hm. simpl. rewrite Huri, insert_insert_eq. reflexivity.
Qed.

Lemma lint_all_runs docs :
  forall s,
    lintEnabled s = true ->
    spawnable (config s) = true ->
    let s' := stateOf (lintAll host docs s) in
    runs s' = runs s ++ List.map freshRun (List.filter lintable docs)
    /\ spawned s'
       = spawned s
         ++ List.map (lintCall host (config s)) (List.filter lintable docs)
    /\ diagnostics s' = diagnostics s
    /\ config s' = config s.
Proof.
  induction docs as [|doc docs IH]; intros s Hon Hsp; cbv zeta.
  - simpl. rewrite !app_nil_r. auto.
  - cbn [lintAll List.filter].
    destruct (lintable doc) eqn:Hl.
    + rewrite (lint_enabled host) by assumption. cbv iota beta.
      match goal with
      | |- context [lintAll host docs ?s1] =>
          destruct (IH s1 Hon Hsp) as (Hr & Hs & Hd & Hc)
      end.
      cbv zeta in Hr, Hs, Hd, Hc |- *.
      rewrite Hr, Hs, Hd, Hc. simpl.
      rewrite <- !app_assoc. auto.
    + rewrite (lint_skipped host) by assumption. cbv iota beta.
      apply IH; assumption.
Qed.

(** X8.  When the sanity probe exits with code 0 or none and linting is on,
    the documents that are open at that moment are linted in their order:
    one run and one linter process per spec file on disk, none for the other
    documents, and the collection starts empty.  The linter path is the one
    the probe was launched with, so it is one [cp.spawn] takes. *)
Theorem initial_pass_lints_open_documents cfg docs code :
  nullish (cfgLint cfg) true = true ->
  spawnable cfg = true ->
  truthyExit code = false ->
  let s0 := activate host (initialState cfg docs) in
  let s := step host s0 (SanityExit code) in
  runs s = List.map freshRun (List.filter lintable docs)
  /\ spawned s
     = spawned s0 ++ List.map (lintCall host cfg) (List.filter lintable docs)
  /\ diagnostics s = Some ∅
  /\ listeners s = registered.
Proof.
  intros Hlint Hsp Hcode s0 s. subst s.
  destruct (activate_state host (initialState cfg docs)) as (Hp & _).
  fold s0 in Hp.
  assert (H0 : config s0 = cfg /\ textDocuments s0 = docs
               /\ listeners s0 = [] /\ runs s0 = [])
    by (unfold s0, activate; simpl;
        destruct (nullish (cfgLsp cfg) true); simpl; auto).
  destruct H0 as (Hc0 & Ht0 & Hl0 & Hr0).
  cbn [step]. rewrite Hp. unfold sanityThen. rewrite Hcode.
  change (cLint (closureAt host (initialState cfg docs)))
    with (nullish (cfgLint cfg) true).
  rewrite Hlint. simpl andb. cbv iota zeta.
  match goal with
  | |- context [lintAll host ?ds ?s3] =>
      assert (Hsp3 : spawnable (config s3) = true)
        by (simpl; rewrite Hc0; exact Hsp);
      destruct (lint_all_runs ds s3) as (Hr & Hs & Hd & Hc);
        [unfold lintEnabled; simpl; rewrite Hc0; exact Hlint | exact Hsp3 |];
      destruct (lint_all_frame host ds s3) as (_ & _ & _ & _ & Hl & _);
      rewrite (lintAll_returns host ds s3 Hsp3)
  end.
  simpl in Hr, Hs, Hd, Hl |- *.
  rewrite Hr, Hs, Hd, Hl, Ht0, Hc0, Hr0, Hl0. simpl. auto.
Qed.

(** ** Invariants of a session *)

Lemma lint_keeps_collection document s :
  is_Some (diagnostics s) ->
  is_Some (diagnostics (stateOf (lint host document s))).
Proof.
  intros [m Hm].
  destruct (lint_cases host document s) as [H|[H|[H|(_ & _ & _ & H)]]];
    rewrite H; simpl; rewrite ?Hm; simpl; eauto.
Qed.

Lemma lint_all_keeps_collection docs s :
  is_Some (diagnostics s) ->
  is_Some (diagnostics (stateOf (lintAll host docs s))).
Proof.
  apply (lintAll_keeps host (fun s => is_Some (diagnostics s))).
  intros doc s'. apply lint_keeps_collection.
Qed.

(** The callback of the sanity probe, its gate passed, registers the three
    listeners, or the first two only when linting an open document threw. *)
Lemma sanityThen_wires c code s :
  truthyExit code = false -> cLint c = true ->
  listeners s = [] -> sanityProbe s = None ->
  halfWired (sanityThen host c code s) \/ wired (sanityThen host c code s).
Proof.
  intros Hcode Hlint Hl Hp.
  destruct (sanityThen_opens host c code s Hcode Hlint)
    as (A & _ & _ & _ & B).
  cbv zeta in A, B. rewrite Hl in A. rewrite Hp in B.
  assert (Hd : is_Some (diagnostics (sanityThen host c code s))).
  { unfold sanityThen. rewrite Hcode, Hlint. simpl.
    match goal with
    | |- context [lintAll host ?ds ?s3] =>
        pose proof (lint_all_keeps_collection ds s3) as Hc;
        destruct (lintAll host ds s3) as [s4|s4]
    end; simpl in Hc |- *; apply Hc; eauto. }
  destruct A as [A|A]; [left | right]; repeat split; assumption.
Qed.

Lemma wired_after_handler e document s :
  wired s -> wired (fire host e document s).
Proof.
  intros (Hl & Hd & Hp). rewrite fire_registered by exact Hl.
  destruct e.
  - destruct (lint_frame host document s) as (_ & _ & _ & A & B & _).
    split; [congruence|]. split; [apply lint_keeps_collection, Hd | congruence].
  - destruct (lint_frame host document s) as (_ & _ & _ & A & B & _).
    split; [congruence|]. split; [apply lint_keeps_collection, Hd | congruence].
  - split; [exact Hl|]. split; [|exact Hp].
    destruct Hd as [m Hm]. simpl. rewrite Hm. simpl. eauto.
Qed.

Lemma halfWired_after_handler e document s :
  halfWired s -> halfWired (fire host e document s).
Proof.
  intros (Hl & Hd & Hp). rewrite fire_halfRegistered by exact Hl.
  destruct e.
  - destruct (lint_frame host document s) as (_ & _ & _ & A & B & _).
    split; [congruence|]. split; [apply lint_keeps_collection, Hd | congruence].
  - destruct (lint_frame host document s) as (_ & _ & _ & A & B & _).
    split; [congruence|]. split; [apply lint_keeps_collection, Hd | congruence].
  - repeat split; assumption.
Qed.

Lemma dormant_after_handler e document s :
  dormant s -> fire host e document s = s.
Proof. intros (Hl & _). unfold fire. rewrite Hl. reflexivity. Qed.

(** The collection exists and the listeners are those of [ls]. *)
Lemma step_keeps_wiring ls s e :
  afterActivation e = true ->
  ls = halfRegistered \/ ls = registered ->
  listeners s = ls /\ is_Some (diagnostics s) /\ sanityProbe s = None ->
  listeners (step host s e) = ls /\ is_Some (diagnostics (step host s e))
  /\ sanityProbe (step host s e) = None.
Proof.
  intros He Hls Hs.
  assert (Hfire : forall ev document s0,
             listeners s0 = ls /\ is_Some (diagnostics s0)
             /\ sanityProbe s0 = None ->
             listeners (fire host ev document s0) = ls
             /\ is_Some (diagnostics (fire host ev document s0))
             /\ sanityProbe (fire host ev document s0) = None).
  { intros ev document s0 H0. destruct Hls as [-> | ->].
    - apply (halfWired_after_handler ev document s0 H0).
    - apply (wired_after_handler ev document s0 H0). }
  destruct Hs as (Hl & Hd & Hn).
  destruct e as [|code|error|code|error|document|document|document|c
                 |i doc line|i|i error|]; try discriminate He; cbn [step].
  - rewrite Hn. auto.
  - rewrite Hn. auto.
  - destruct (lspProbe s); repeat split; assumption.
  - destruct (lspProbe s); repeat split; assumption.
  - apply Hfire. repeat split; assumption.
  - apply Hfire. repeat split; assumption.
  - apply Hfire. repeat split; assumption.
  - repeat split; assumption.
  - unfold onLintLine. destruct (runs s !! i); repeat split; assumption.
  - unfold onLintClose. destruct (runs s !! i); repeat split; try assumption.
    destruct Hd as [m Hm]. simpl. rewrite Hm. simpl. eauto.
  - unfold onLintError. destruct (runs s !! i); repeat split; try assumption.
    destruct Hd as [m Hm]. simpl. rewrite Hm. simpl. eauto.
  - unfold deactivate. destruct (lspClient s); repeat split; assumption.
Qed.

Lemma step_dormant_or_wired s e :
  afterActivation e = true ->
  dormant s \/ halfWired s \/ wired s ->
  dormant (step host s e) \/ halfWired (step host s e)
  \/ wired (step host s e).
Proof.
  intros He [Hs|[Hs|Hs]];
    [| right; left;
       apply (step_keeps_wiring halfRegistered s e He (or_introl eq_refl) Hs)
     | right; right;
       apply (step_keeps_wiring registered s e He (or_intror eq_refl) Hs)].
  pose proof Hs as (Hl & Hd & Hr).
  destruct e as [|code|error|code|error|document|document|document|c
                 |i doc line|i|i error|]; try discriminate He; cbn [step].
  - destruct (sanityProbe s) as [c|] eqn:Hp; [|left; exact Hs].
    destruct (truthyExit code) eqn:Hc;
      [left; rewrite (sanityThen_skips host) by auto; repeat split; assumption|].
    destruct (cLint c) eqn:Hlint;
      [|left; rewrite (sanityThen_skips host) by auto; repeat split; assumption].
    right. apply sanityThen_wires; auto.
  - destruct (sanityProbe s) as [c|] eqn:Hp; [|left; exact Hs].
    destruct (cLint c) eqn:Hlint;
      [|left; rewrite (sanityThen_skips host) by auto; repeat split; assumption].
    right. apply sanityThen_wires; auto.
  - left. destruct (lspProbe s); repeat split; assumption.
  - left. destruct (lspProbe s); repeat split; assumption.
  - left. rewrite dormant_after_handler; repeat split; assumption.
  - left. rewrite dormant_after_handler; assumption.
  - left. rewrite dormant_after_handler; repeat split; assumption.
  - left. repeat split; assumption.
  - left. unfold onLintLine. rewrite Hr. exact Hs.
  - left. unfold onLintClose. rewrite Hr. exact Hs.
  - left. unfold onLintError. rewrite Hr. exact Hs.
  - left. unfold deactivate. destruct (lspClient s); repeat split; assumption.
Qed.

(** X9.  Through a whole session (activation, then any events but a second
    activation) the listeners are absent, or the open and save listeners
    are registered once without the close listener (an exception while the
    open documents were linted ended the callback there), or all three are
    registered once; so a document event starts at most one run; and the
    diagnostic collection exists whenever a listener is registered or a run
    exists, so no handler ever uses it undefined. *)
Theorem listeners_registered_at_most_once cfg docs es :
  forallb afterActivation es = true ->
  let s := run host (initialState cfg docs) (Activate :: es) in
  (dormant s \/ halfWired s \/ wired s)
  /\ (listeners s = [] \/ listeners s = halfRegistered
      \/ listeners s = registered)
  /\ (listeners s <> [] \/ runs s <> [] -> is_Some (diagnostics s)).
Proof.
  intros Hes. cbv zeta.
  change (run host (initialState cfg docs) (Activate :: es))
    with (run host (activate host (initialState cfg docs)) es).
  assert (H0 : dormant (activate host (initialState cfg docs))
               \/ halfWired (activate host (initialState cfg docs))
               \/ wired (activate host (initialState cfg docs))).
  { left. unfold activate. simpl.
    destruct (nullish (cfgLsp cfg) true); repeat split. }
  revert H0. generalize (activate host (initialState cfg docs)) as s.
  induction es as [|e es IH]; intros s Hs.
  - split; [exact Hs|].
    destruct Hs as [(Hl & Hd & Hr)|[(Hl & Hd & Hn)|(Hl & Hd & Hn)]].
    + split; [auto|]. intros [H|H]; exfalso; apply H; assumption.
    + split; [auto|]. intros _. exact Hd.
    + split; [auto|]. intros _. exact Hd.
  - simpl in Hes. apply andb_true_iff in Hes as [He Hes].
    apply (IH Hes (step host s e)), step_dormant_or_wired; assumption.
Qed.

(** A dormant extension stays dormant and spawns nothing, as long as the
    sanity callback does not run with its gate open. *)
Lemma step_stays_dormant sp s e :
  afterActivation e = true ->
  dormant s -> spawned s = sp ->
  (notSanityEvent e = true ->
   dormant (step host s e) /\ spawned (step host s e) = sp
   /\ sanityProbe (step host s e) = sanityProbe s)
  /\ (gateShut s ->
      dormant (step host s e) /\ spawned (step host s e) = sp
      /\ gateShut (step host s e)).
Proof.
  intros He Hs Hsp. pose proof Hs as (Hl & Hd & Hr).
  assert (Hsame : forall s', dormant s' -> spawned s' = sp ->
                             sanityProbe s' = sanityProbe s ->
                             (notSanityEvent e = true ->
                              dormant s' /\ spawned s' = sp
                              /\ sanityProbe s' = sanityProbe s)
                             /\ (gateShut s ->
                                 dormant s' /\ spawned s' = sp /\ gateShut s')).
  { intros s' A B C. split; [auto|]. intros G. repeat split; try apply A; auto.
    intros c Hc. apply G. congruence. }
  destruct e as [|code|error|code|error|document|document|document|c
                 |i doc line|i|i error|]; try discriminate He; cbn [step].
  - split; [discriminate|]. intros G.
    destruct (sanityProbe s) as [c|] eqn:Hp; [|auto].
    rewrite (sanityThen_skips host) by (right; apply G; exact Hp).
    repeat split; auto. intros c' Hc'. discriminate Hc'.
  - split; [discriminate|]. intros G.
    destruct (sanityProbe s) as [c|] eqn:Hp; [|auto].
    rewrite (sanityThen_skips host) by (right; apply G; exact Hp).
    repeat split; auto. intros c' Hc'. discriminate Hc'.
  - destruct (lspProbe s); apply Hsame; repeat split; auto.
  - destruct (lspProbe s); apply Hsame; repeat split; auto.
  - rewrite dormant_after_handler by (repeat split; assumption).
    apply Hsame; repeat split; auto.
  - rewrite dormant_after_handler by exact Hs. apply Hsame; auto.
  - rewrite dormant_after_handler by (repeat split; assumption).
    apply Hsame; repeat split; auto.
  - apply Hsame; repeat split; auto.
  - unfold onLintLine. rewrite Hr. apply Hsame; auto.
  - unfold onLintClose. rewrite Hr. apply Hsame; auto.
  - unfold onLintError. rewrite Hr. apply Hsame; auto.
  - unfold deactivate. destruct (lspClient s); apply Hsame; repeat split; auto.
Qed.

Lemma run_stays_dormant sp es :
  forallb afterActivation es = true ->
  forall s,
    dormant s -> spawned s = sp -> gateShut s ->
    dormant (run host s es) /\ spawned (run host s es) = sp.
Proof.
  induction es as [|e es IH]; intros Hes s Hs Hsp G; [auto|].
  simpl in Hes. apply andb_true_iff in Hes as [He Hes].
  destruct (step_stays_dormant sp s e He Hs Hsp) as [_ H].
  destruct (H G) as (A & B & C).
  apply (IH Hes (step host s e) A B C).
Qed.

Lemma run_stays_dormant_pending sp es :
  forallb (fun e => afterActivation e && notSanityEvent e) es = true ->
  forall s,
    dormant s -> spawned s = sp ->
    dormant (run host s es) /\ spawned (run host s es) = sp.
Proof.
  induction es as [|e es IH]; intros Hes s Hs Hsp; [auto|].
  simpl in Hes. apply andb_true_iff in Hes as [He Hes].
  apply andb_true_iff in He as [He1 He2].
  destruct (step_stays_dormant sp s e He1 Hs Hsp) as [H _].
  destruct (H He2) as (A & B & _).
  apply (IH Hes (step host s e) A B).
Qed.

Lemma activate_dormant cfg docs :
  dormant (activate host (initialState cfg docs))
  /\ sanityProbe (activate host (initialState cfg docs))
     = Some (closureAt host (initialState cfg docs)).
Proof.
  unfold activate. simpl.
  destruct (nullish (cfgLsp cfg) true); repeat split.
Qed.

(** X10.  When the lint flag is off at activation, nothing is ever
    registered in the session: whatever events follow, a change of the
    settings that turns linting on among them, there is no listener, no
    collection, no run, and no process is spawned after the probes. *)
Theorem lint_off_at_activation_never_lints cfg docs es :
  cfgLint cfg = Some false ->
  forallb afterActivation es = true ->
  let s0 := activate host (initialState cfg docs) in
  let s := run host s0 es in
  listeners s = [] /\ diagnostics s = None /\ runs s = []
  /\ spawned s = spawned s0.
Proof.
  intros Hoff Hes s0 s.
  destruct (activate_dormant cfg docs) as (Hd & Hp). fold s0 in Hd, Hp.
  assert (G : gateShut s0).
  { intros c Hc. rewrite Hp in Hc. injection Hc as <-.
    simpl. rewrite Hoff. reflexivity. }
  destruct (run_stays_dormant (spawned s0) es Hes s0 Hd eq_refl G)
    as ((A & B & C) & D).
  auto.
Qed.

(** X11.  When the first outcome of the sanity probe is an exit with a code
    other than zero, linting is off for the session: whatever events come
    before and after, there is no listener, no collection, no run, and no
    process is spawned after the probes. *)
Theorem failed_sanity_never_lints cfg docs before n after :
  n <> 0 ->
  forallb (fun e => afterActivation e && notSanityEvent e) before = true ->
  forallb afterActivation after = true ->
  let s0 := activate host (initialState cfg docs) in
  let s := run host s0 (before ++ SanityExit (Some n) :: after) in
  listeners s = [] /\ diagnostics s = None /\ runs s = []
  /\ spawned s = spawned s0.
Proof.
  intros Hn Hbefore Hafter s0 s. subst s.
  destruct (activate_dormant cfg docs) as (Hd & _). fold s0 in Hd.
  pose proof (run_stays_dormant_pending (spawned s0) before Hbefore s0 Hd
                eq_refl) as Hb.
  destruct Hb as (Hd1 & Hsp1).
  rewrite run_app.
  set (s1 := run host s0 before) in *.
  change (run host s1 (SanityExit (Some n) :: after))
    with (run host (step host s1 (SanityExit (Some n))) after).
  assert (Hx : dormant (step host s1 (SanityExit (Some n)))
               /\ spawned (step host s1 (SanityExit (Some n))) = spawned s0
               /\ gateShut (step host s1 (SanityExit (Some n)))).
  { cbn [step]. destruct (sanityProbe s1) as [c|] eqn:Hp.
    - rewrite (sanityThen_skips host).
      + destruct Hd1 as (A & B & C). repeat split; auto.
        intros c' Hc'. discriminate Hc'.
      + left. simpl. destruct (Z.eqb_spec n 0); [contradiction | reflexivity].
    - repeat split; try apply Hd1; auto. intros c' Hc'. congruence. }
  destruct Hx as (A & B & C).
  destruct (run_stays_dormant (spawned s0) after Hafter _ A B C)
    as ((D & E & F) & G).
  auto.
Qed.

(** ** The language client *)

Lemma step_without_client s e :
  afterActivation e = true ->
  lspProbe s = None -> lspClient s = None ->
  lspProbe (step host s e) = None /\ lspClient (step host s e) = None.
Proof.
  intros He Hp Hc. destruct (notLspEvent e) eqn:Hn.
  - destruct (step_lsp_frame host s e Hn) as [A B]. rewrite A, B. auto.
  - destruct e; try discriminate; cbn [step]; try (rewrite Hp; auto).
    unfold deactivate. rewrite Hc. auto.
Qed.

(** X12.  With the language server switched off in the settings at
    activation, [activate] spawns the linter probe only, and no client exists
    at any later moment of the session, whatever happens. *)
Theorem lsp_off_never_starts_client cfg docs es :
  cfgLsp cfg = Some false ->
  forallb afterActivation es = true ->
  let s0 := activate host (initialState cfg docs) in
  spawned s0
  = [{| command := nullish (cfgRpmlintPath cfg) (js "rpmlint");
        args := [js "--help"];
        spawnOptions := options (getSanityContext host cfg) |}]
  /\ lspClient (run host s0 es) = None
  /\ lspProbe (run host s0 es) = None.
Proof.
  intros Hoff Hes s0.
  assert (H0 : spawned s0
               = [{| command := nullish (cfgRpmlintPath cfg) (js "rpmlint");
                     args := [js "--help"];
                     spawnOptions := options (getSanityContext host cfg) |}]
               /\ lspProbe s0 = None /\ lspClient s0 = None)
    by (unfold s0, activate; simpl; rewrite Hoff; simpl; auto).
  destruct H0 as (Hs & Hp & Hc). split; [exact Hs|].
  clear Hs. revert Hp Hc. generalize s0 as s. clear s0.
  induction es as [|e es IH]; intros s Hp Hc; [auto|].
  simpl in Hes. apply andb_true_iff in Hes as [He Hes].
  destruct (step_without_client s e He Hp Hc) as [A B].
  apply (IH Hes (step host s e) A B).
Qed.

(** X13.  [deactivate] stops a client only when one exists.  When it runs
    while the language-server probe is still pending, nothing is stopped,
    and the client is created and started all the same when the probe exits
    afterwards: that client is never stopped by the extension. *)
Theorem deactivate_before_probe_stops_nothing cfg docs before code :
  nullish (cfgLsp cfg) true = true ->
  forallb notLspEvent before = true ->
  let s1 := run host (initialState cfg docs)
                (Activate :: before ++ [Deactivate]) in
  lspClient s1 = None
  /\ exists client,
      lspClient (step host s1 (LspExit code)) = Some client
      /\ startCalls client = 1%nat
      /\ stopCalls client = 0%nat.
Proof.
  intros Hlsp Hbefore. cbv zeta.
  change (Activate :: before ++ [Deactivate])
    with ([Activate] ++ before ++ [Deactivate]).
  rewrite !run_app.
  set (s0 := initialState cfg docs).
  change (run host s0 [Activate]) with (activate host s0).
  destruct (activate_state host s0) as (_ & Hp & Hc & _).
  change (config s0) with cfg in Hp. rewrite Hlsp in Hp.
  destruct (run_lsp_frame host before (activate host s0) Hbefore) as [Bc Bp].
  rewrite Hp in Bp. rewrite Hc in Bc. change (lspClient s0) with
    (@None LanguageClient) in Bc.
  set (sb := run host (activate host s0) before) in *.
  assert (Hd : run host sb [Deactivate] = sb)
    by (unfold run; simpl; unfold deactivate; rewrite Bc; reflexivity).
  rewrite Hd. split; [exact Bc|].
  cbn [step]. rewrite Bp, lspThen_starts.
  eexists. split; [reflexivity|]. auto.
Qed.

(** ** What holds of every process and of every diagnostic set *)

Lemma fold_keeps {A} (P : ExtState -> Prop) (f : ExtState -> A -> ExtState)
    (l : list A) :
  (forall s a, P s -> P (f s a)) ->
  forall s, P s -> P (fold_left f l s).
Proof.
  intros Hf. induction l as [|a l IH]; intros s Hs; [exact Hs|].
  simpl. apply IH, Hf, Hs.
Qed.

Lemma env_same_fields s s' :
  spawned s' = spawned s -> sanityProbe s' = sanityProbe s ->
  lspProbe s' = lspProbe s -> lspClient s' = lspClient s ->
  envEverywhere host s -> envEverywhere host s'.
Proof.
  unfold envEverywhere. intros -> -> -> ->. auto.
Qed.

Lemma env_sanity_settled s :
  envEverywhere host s -> envEverywhere host (setSanityProbe None s).
Proof.
  intros (A & B & C & D). repeat split; try assumption.
  intros c Hc. discriminate Hc.
Qed.

Lemma lint_env document s :
  envEverywhere host s -> envEverywhere host (stateOf (lint host document s)).
Proof.
  intros H.
  destruct (lint_cases host document s) as [E|[E|[E|(_ & _ & _ & E)]]];
    rewrite E; simpl; try exact H.
  destruct H as (A & B & C & D). repeat split; try assumption.
  simpl. apply Forall_app. split; [exact A|].
  constructor; [reflexivity | constructor].
Qed.

Lemma fire_env e document s :
  envEverywhere host s -> envEverywhere host (fire host e document s).
Proof.
  unfold fire. apply fold_keeps. intros s' [e' h] Hs'. simpl.
  destruct (eventKindEq e' e); [|exact Hs'].
  destruct h; simpl; [apply lint_env, Hs'|].
  revert Hs'. apply env_same_fields; reflexivity.
Qed.

Lemma sanityThen_env c code s :
  envEverywhere host s -> envEverywhere host (sanityThen host c code s).
Proof.
  intros H. unfold sanityThen.
  destruct (negb (truthyExit code) && cLint c); [|exact H].
  cbv zeta.
  match goal with
  | |- context [lintAll host ?ds ?s3] =>
      assert (H4 : envEverywhere host (stateOf (lintAll host ds s3)))
        by (apply (lintAll_keeps host (envEverywhere host));
            [intros doc s'; apply lint_env
            |revert H; apply env_same_fields; reflexivity]);
      destruct (lintAll host ds s3) as [s4|s4]
  end; simpl in H4; [|exact H4].
  revert H4. apply env_same_fields; reflexivity.
Qed.

Lemma step_env s e :
  envEverywhere host s -> envEverywhere host (step host s e).
Proof.
  intros H.
  destruct e as [|code|error|code|error|document|document|document|c
                 |i doc line|i|i error|]; cbn [step].
  - destruct H as (A & B & C & D). unfold activate.
    destruct (nullish (cfgLsp (config s)) true); simpl;
      (split; [|split; [|split]]); simpl; try assumption.
    + rewrite <- app_assoc. apply Forall_app. split; [exact A|].
      repeat constructor.
    + intros c [= <-]. reflexivity.
    + intros c [= <-]. reflexivity.
    + apply Forall_app. split; [exact A|]. repeat constructor.
    + intros c [= <-]. reflexivity.
  - destruct (sanityProbe s); [|exact H].
    apply sanityThen_env, env_sanity_settled, H.
  - destruct (sanityProbe s); [|exact H].
    apply sanityThen_env, env_sanity_settled.
    revert H. apply env_same_fields; reflexivity.
  - destruct (lspProbe s) as [c|] eqn:Hp; [|exact H].
    rewrite lspThen_starts. destruct H as (A & B & C & D).
    repeat split; simpl; try assumption.
    + intros c' Hc'. discriminate Hc'.
    + intros client [= <-]. simpl. apply C. exact Hp.
  - destruct (lspProbe s) as [c|] eqn:Hp; [|exact H].
    destruct H as (A & B & C & D). repeat split; simpl; try assumption.
    intros c' Hc'. discriminate Hc'.
  - apply fire_env. revert H. apply env_same_fields; reflexivity.
  - apply fire_env, H.
  - apply fire_env. revert H. apply env_same_fields; reflexivity.
  - revert H. apply env_same_fields; reflexivity.
  - unfold onLintLine. destruct (runs s !! i); [|exact H].
    revert H. apply env_same_fields; reflexivity.
  - unfold onLintClose. destruct (runs s !! i); [|exact H].
    revert H. apply env_same_fields; reflexivity.
  - unfold onLintError. destruct (runs s !! i); [|exact H].
    revert H. apply env_same_fields; reflexivity.
  - unfold deactivate. destruct (lspClient s) as [client|] eqn:Hc; [|exact H].
    destruct H as (A & B & C & D). repeat split; simpl; try assumption.
    intros client' [= <-]. simpl. apply D. exact Hc.
Qed.

(** X14.  Whatever happens in a session, every process the extension has
    spawned (the two probes and each linter run) and the server process of
    the language client are given the environment [LANG=C] and [PATH] only,
    [PATH] being that of the host process or the empty string when it has
    none. *)
Theorem every_process_runs_in_C_locale cfg docs es :
  let s := run host (initialState cfg docs) es in
  let environment :=
    [(js "LANG", js "C"); (js "PATH", nullish (processEnvPATH host) [])] in
  Forall (fun call => env (spawnOptions call) = environment) (spawned s)
  /\ (forall client, lspClient s = Some client ->
        serverEnv client = environment).
Proof.
  cbv zeta.
  assert (H : envEverywhere host (run host (initialState cfg docs) es)).
  { unfold run. apply fold_keeps; [intros s e Hs; apply step_env, Hs|].
    repeat split; try (intros c Hc; discriminate Hc). constructor. }
  destruct H as (A & _ & _ & D). split; [exact A | exact D].
Qed.

Lemma disk_same_fields s s' :
  runs s' = runs s -> diagnostics s' = diagnostics s ->
  onDiskOnly s -> onDiskOnly s'.
Proof. unfold onDiskOnly. intros -> ->. auto. Qed.

Lemma disk_delete u s :
  onDiskOnly s -> onDiskOnly (diagnosticsDelete u s).
Proof.
  intros (A & B). split; [exact A|]. simpl. intros m k Hm Hk.
  destruct (diagnostics s) as [m0|]; [|discriminate Hm].
  simpl in Hm. injection Hm as <-.
  apply lookup_delete_is_Some in Hk as [_ Hk]. apply (B m0 k eq_refl Hk).
Qed.

Lemma disk_set u array s :
  scheme u = MODE_scheme ->
  onDiskOnly s -> onDiskOnly (diagnosticsSet u array s).
Proof.
  intros Hu (A & B). split; [exact A|]. simpl. intros m k Hm Hk.
  destruct (diagnostics s) as [m0|]; [|discriminate Hm].
  simpl in Hm. injection Hm as <-.
  apply lookup_insert_is_Some' in Hk as [<-|Hk]; [exact Hu|].
  apply (B m0 k eq_refl Hk).
Qed.

Lemma lint_disk document s :
  onDiskOnly s -> onDiskOnly (stateOf (lint host document s)).
Proof.
  intros H.
  destruct (lint_cases host document s) as [E|[E|[E|(Hl & _ & _ & E)]]];
    rewrite E; simpl stateOf; [exact H | apply disk_delete, H | exact H |].
  destruct H as (A & B). split; [|exact B]. simpl.
  apply Forall_app. split; [exact A|].
  constructor; [|constructor]. simpl. split; [|reflexivity].
  unfold lintable in Hl. apply andb_true_iff in Hl as [Hl _].
  apply andb_true_iff in Hl as [_ Hl].
  apply bool_decide_eq_true in Hl. exact Hl.
Qed.

Lemma fire_disk e document s :
  onDiskOnly s -> onDiskOnly (fire host e document s).
Proof.
  unfold fire. apply fold_keeps. intros s' [e' h] Hs'. simpl.
  destruct (eventKindEq e' e); [|exact Hs'].
  destruct h; simpl; [apply lint_disk, Hs' | apply disk_delete, Hs'].
Qed.

Lemma sanityThen_disk c code s :
  onDiskOnly s -> onDiskOnly (sanityThen host c code s).
Proof.
  intros H. unfold sanityThen.
  destruct (negb (truthyExit code) && cLint c); [|exact H].
  cbv zeta.
  match goal with
  | |- context [lintAll host ?ds ?s3] =>
      assert (H4 : onDiskOnly (stateOf (lintAll host ds s3)));
        [apply (lintAll_keeps host onDiskOnly);
           [intros doc s'; apply lint_disk|]
        |destruct (lintAll host ds s3) as [s4|s4]; simpl in H4; [|exact H4];
         revert H4; apply disk_same_fields; reflexivity]
  end.
  destruct H as (A & B). split; [exact A|]. simpl.
  intros m k [= <-] Hk. exfalso. revert Hk. apply lookup_empty_is_Some.
Qed.

Lemma run_of_disk i r s :
  onDiskOnly s -> runs s !! i = Some r -> scheme (runUri r) = MODE_scheme.
Proof.
  intros (A & _) Hr. apply (Forall_lookup_1 _ _ _ _ A Hr).
Qed.

Lemma step_disk s e :
  onDiskOnly s -> onDiskOnly (step host s e).
Proof.
  intros H.
  destruct e as [|code|error|code|error|document|document|document|c
                 |i doc line|i|i error|]; cbn [step].
  - revert H. apply disk_same_fields; unfold activate;
      destruct (nullish (cfgLsp (config s)) true); reflexivity.
  - destruct (sanityProbe s); [|exact H].
    apply sanityThen_disk. revert H. apply disk_same_fields; reflexivity.
  - destruct (sanityProbe s); [|exact H].
    apply sanityThen_disk. revert H. apply disk_same_fields; reflexivity.
  - destruct (lspProbe s); [|exact H].
    revert H. apply disk_same_fields; reflexivity.
  - destruct (lspProbe s); [|exact H].
    revert H. apply disk_same_fields; reflexivity.
  - apply fire_disk. revert H. apply disk_same_fields; reflexivity.
  - apply fire_disk, H.
  - apply fire_disk. revert H. apply disk_same_fields; reflexivity.
  - revert H. apply disk_same_fields; reflexivity.
  - unfold onLintLine. destruct (runs s !! i) as [r|] eqn:Hr; [|exact H].
    destruct H as (A & B). split; [|exact B]. simpl.
    apply Forall_alter; [exact A|]. intros x _ Hx. exact Hx.
  - unfold onLintClose. destruct (runs s !! i) as [r|] eqn:Hr; [|exact H].
    apply disk_set; [apply (run_of_disk i r s H Hr) | exact H].
  - unfold onLintError. destruct (runs s !! i) as [r|] eqn:Hr; [|exact H].
    apply disk_set; [apply (run_of_disk i r s H Hr)|].
    revert H. apply disk_same_fields; reflexivity.
  - unfold deactivate. destruct (lspClient s); [|exact H].
    revert H. apply disk_same_fields; reflexivity.
Qed.

(** X15.  Whatever happens in a session, every run belongs to a document
    with the [file] scheme and matches lines with the pattern built from
    that document's own path, and every diagnostic set in the collection is
    filed under a [file] document: nothing is ever published for a document
    of another scheme. *)
Theorem diagnostics_only_for_files cfg docs es :
  let s := run host (initialState cfg docs) es in
  (forall i r, runs s !! i = Some r ->
     scheme (runUri r) = js "file"
     /\ diagnosticPattern (fsPath (runUri r)) = Some (runPattern r))
  /\ (forall u ds, diagnosticsOf s u = Some ds -> scheme u = js "file").
Proof.
  cbv zeta.
  assert (H : onDiskOnly (run host (initialState cfg docs) es)).
  { unfold run. apply fold_keeps; [intros s e Hs; apply step_disk, Hs|].
    split; [constructor|]. intros m k Hm. discriminate Hm. }
  destruct H as (A & B). split.
  - intros i r Hr. destruct (Forall_lookup_1 _ _ _ _ A Hr) as [H1 H2].
    split; [exact H1|]. rewrite diagnosticPattern_built, H2. reflexivity.
  - intros u ds Hu. unfold diagnosticsOf in Hu.
    destruct (diagnostics (run host (initialState cfg docs) es)) as [m|] eqn:Hm;
      [|discriminate Hu].
    simpl in Hu. apply (B m (uriKey u) eq_refl). eauto.
Qed.

Lemma sanityThen_warnings c code s :
  warnings (sanityThen host c code s) = warnings s.
Proof.
  destruct (truthyExit code) eqn:Hc;
    [rewrite (sanityThen_skips host) by auto; reflexivity|].
  destruct (cLint c) eqn:Hl;
    [|rewrite (sanityThen_skips host) by auto; reflexivity].
  destruct (sanityThen_opens host c code s Hc Hl) as (_ & A & _).
  exact A.
Qed.

Lemma step_warnings s e :
  notErrorEvent e = true -> warnings (step host s e) = warnings s.
Proof.
  intros He.
  destruct e as [|code|error|code|error|document|document|document|c
                 |i doc line|i|i error|]; try discriminate He; cbn [step].
  - destruct (activate_state host s) as (_ & _ & _ & _ & _ & A). exact A.
  - destruct (sanityProbe s); [|reflexivity]. rewrite sanityThen_warnings.
    reflexivity.
  - destruct (lspProbe s); reflexivity.
  - destruct (lspProbe s); reflexivity.
  - destruct (fire_frame host DidOpen document
                (setTextDocuments (textDocuments s ++ [document]) s))
      as (_ & _ & _ & _ & _ & _ & A). exact A.
  - destruct (fire_frame host DidSave document s)
      as (_ & _ & _ & _ & _ & _ & A). exact A.
  - match goal with
    | |- context [fire host DidClose document ?s0] =>
        destruct (fire_frame host DidClose document s0)
          as (_ & _ & _ & _ & _ & _ & A)
    end. exact A.
  - reflexivity.
  - unfold onLintLine. destruct (runs s !! i); reflexivity.
  - unfold onLintClose. destruct (runs s !! i); reflexivity.
  - unfold deactivate. destruct (lspClient s); reflexivity.
Qed.

(** X16.  The extension shows a warning from the [error] handlers of its
    processes only: a session without such an event shows none.  In
    particular a sanity probe that exits with a code other than zero turns
    linting off without any notification. *)
Theorem warnings_only_on_process_errors cfg docs es :
  forallb notErrorEvent es = true ->
  warnings (run host (initialState cfg docs) es) = [].
Proof.
  intros Hes. unfold run.
  change (@nil jsstring) with (warnings (initialState cfg docs)).
  generalize (initialState cfg docs) as s.
  induction es as [|e es IH]; intros s; [reflexivity|].
  simpl in Hes. apply andb_true_iff in Hes as [He Hes].
  simpl. rewrite (IH Hes). apply step_warnings, He.
Qed.

End SessionProperties.

(** ** The same on the sample session *)

Lemma foreign_document_ignored_witness :
  (listeners sReady = registered /\ lintable untitledSpec = false)
  /\ step sampleHost sReady (Saved untitledSpec) = sReady
  /\ step sampleHost sReady (Opened untitledSpec)
     = setTextDocuments (textDocuments sReady ++ [untitledSpec]) sReady.
Proof.
  split; [split; vm_compute; reflexivity|].
  apply (foreign_document_ignored sampleHost untitledSpec sReady);
    vm_compute; reflexivity.
Defined.


Lemma close_removes_diagnostics_witness :
  listeners sLinted = registered
  /\ let s' := step sampleHost sLinted (Closed specA) in
     diagnosticsOf s' (uri specA) = None
     /\ (forall u, uriKey u <> uriKey (uri specA) ->
           diagnosticsOf s' u = diagnosticsOf sLinted u)
     /\ spawned s' = spawned sLinted
     /\ runs s' = runs sLinted.
Proof.
  split; [vm_compute; reflexivity|].
  apply (close_removes_diagnostics sampleHost specA sLinted).
  vm_compute; reflexivity.
Defined.

Lemma last_close_wins_witness :
  (runs sTwice !! 0%nat = Some (freshRun specA)
   /\ runs sTwice !! 1%nat = Some (freshRun specA)
   /\ runUri (freshRun specA) = runUri (freshRun specA)
   /\ diagnostics sTwice = Some ∅
   /\ forallb isLintLine mixedLines = true)
  /\ diagnostics (run sampleHost sTwice
                      (mixedLines ++ [LintClose 1; LintClose 0]))
     = Some (<[uriKey (runUri (freshRun specA))
               := runArray (freshRun specA)
                  ++ collect (runPattern (freshRun specA))
                             (linesOf 0 mixedLines)]> ∅).
Proof.
  split; [repeat split; vm_compute; reflexivity|].
  apply (last_close_wins sampleHost sTwice 0%nat 1%nat
           (freshRun specA) (freshRun specA) ∅ mixedLines);
    vm_compute; reflexivity.
Defined.

Lemma initial_pass_lints_open_documents_witness :
  (nullish (cfgLint defaults) true = true /\ spawnable defaults = true
   /\ truthyExit (Some 0) = false)
  /\ let docs := [specA; untitledSpec; specB] in
     let s0 := activate sampleHost (initialState defaults docs) in
     let s := step sampleHost s0 (SanityExit (Some 0)) in
     runs s = List.map freshRun (List.filter lintable docs)
     /\ spawned s
        = spawned s0
          ++ List.map (lintCall sampleHost defaults) (List.filter lintable docs)
     /\ diagnostics s = Some ∅
     /\ listeners s = registered.
Proof.
  split; [repeat split; reflexivity|].
  apply (initial_pass_lints_open_documents sampleHost defaults
           [specA; untitledSpec; specB] (Some 0)); reflexivity.
Defined.

Lemma listeners_registered_at_most_once_witness :
  let es := [SanityExit (Some 0); Opened specA; SanityExit None;
             SanityError (js "late")] in
  forallb afterActivation es = true
  /\ let s := run sampleHost (initialState defaults []) (Activate :: es) in
     (dormant s \/ halfWired s \/ wired s)
     /\ (listeners s = [] \/ listeners s = halfRegistered
         \/ listeners s = registered)
     /\ (listeners s <> [] \/ runs s <> [] -> is_Some (diagnostics s)).
Proof.
  intros es. split; [reflexivity|].
  apply (listeners_registered_at_most_once sampleHost defaults [] es).
  reflexivity.
Defined.

(** The middle case occurs: the linter path is emptied while the sanity
    probe runs and a spec file is open, so linting it throws inside the
    callback; the open and save listeners stay registered, the close
    listener and the disposable are missing. *)
Example registration_cut_short :
  let s := run sampleHost (initialState defaults [specA])
               [Activate; ConfigChanged emptyPath; SanityExit (Some 0)] in
  listeners s = halfRegistered
  /\ subscriptions s = []
  /\ diagnostics s = Some ∅
  /\ runs s = [].
Proof. repeat split; vm_compute; reflexivity. Qed.

Lemma lint_off_at_activation_never_lints_witness :
  let es := [ConfigChanged defaults; SanityExit (Some 0); Opened specA;
             Saved specA] in
  (cfgLint lintOff = Some false /\ forallb afterActivation es = true)
  /\ let s0 := activate sampleHost (initialState lintOff [specB]) in
     let s := run sampleHost s0 es in
     listeners s = [] /\ diagnostics s = None /\ runs s = []
     /\ spawned s = spawned s0.
Proof.
  intros es. split; [split; reflexivity|].
  apply (lint_off_at_activation_never_lints sampleHost lintOff [specB] es);
    reflexivity.
Defined.

Lemma failed_sanity_never_lints_witness :
  let before := [Opened specA] in
  let after := [SanityExit (Some 0); Saved specA] in
  (2 <> 0
   /\ forallb (fun e => afterActivation e && notSanityEvent e) before = true
   /\ forallb afterActivation after = true)
  /\ let s0 := activate sampleHost (initialState defaults [specB]) in
     let s := run sampleHost s0 (before ++ SanityExit (Some 2) :: after) in
     listeners s = [] /\ diagnostics s = None /\ runs s = []
     /\ spawned s = spawned s0.
Proof.
  intros before after. split; [repeat split; (reflexivity || lia)|].
  apply (failed_sanity_never_lints sampleHost defaults [specB] before 2 after);
    (reflexivity || lia).
Defined.

Lemma lsp_off_never_starts_client_witness :
  let es := [LspExit (Some 0); SanityExit (Some 0); Deactivate] in
  (cfgLsp lspOff = Some false /\ forallb afterActivation es = true)
  /\ let s0 := activate sampleHost (initialState lspOff []) in
     spawned s0
     = [{| command := nullish (cfgRpmlintPath lspOff) (js "rpmlint");
           args := [js "--help"];
           spawnOptions := options (getSanityContext sampleHost lspOff) |}]
     /\ lspClient (run sampleHost s0 es) = None
     /\ lspProbe (run sampleHost s0 es) = None.
Proof.
  intros es. split; [split; reflexivity|].
  apply (lsp_off_never_starts_client sampleHost lspOff [] es); reflexivity.
Defined.

Lemma deactivate_before_probe_stops_nothing_witness :
  let before := [SanityExit (Some 0); Opened specA] in
  (nullish (cfgLsp defaults) true = true
   /\ forallb notLspEvent before = true)
  /\ let s1 := run sampleHost (initialState defaults [])
                   (Activate :: before ++ [Deactivate]) in
     lspClient s1 = None
     /\ exists client,
         lspClient (step sampleHost s1 (LspExit (Some 0))) = Some client
         /\ startCalls client = 1%nat
         /\ stopCalls client = 0%nat.
Proof.
  intros before. split; [split; reflexivity|].
  apply (deactivate_before_probe_stops_nothing sampleHost defaults [] before
           (Some 0)); reflexivity.
Defined.

Lemma warnings_only_on_process_errors_witness :
  let es := [Activate; SanityExit (Some 1); LspExit None; Opened specA;
             Deactivate] in
  forallb notErrorEvent es = true
  /\ warnings (run sampleHost (initialState defaults []) es) = [].
Proof.
  intros es. split; [reflexivity|].
  apply (warnings_only_on_process_errors sampleHost defaults [] es).
  reflexivity.
Defined.
